(** * JTA Residential Healthcare API: a shallow embedding of [app/auth.py]
    and [app/main.py]

    The development follows the two source files.

    - [Py] holds the fragment of Python the handlers rely on: dynamically
      typed values, insertion-ordered dictionaries, [str], [int], [float],
      truthiness and exceptions.
    - [Jwt] is an ideal model of the PyJWT calls [jwt.encode] and
      [jwt.decode] (HS256), exact on the tokens that [login] issues.
    - [Auth] is [app/auth.py]: the module globals, [create_access_token] and
      [verify_token].
    - [Dynamo] is the interface to the backing store: the client calls the
      handlers issue, the programs that issue them, and a reference
      in-memory store that answers them.
    - [Main] is [app/main.py]: [deserialize_dynamodb_item], the request
      models, [login] and the Staff, Shift and Expense handlers.
    - [MainRest] is the rest of [app/main.py]: the create routes of Shift
      and Expense and the three list routes, with boto3's
      [TypeDeserializer] as a parameter.

    Time is counted in whole seconds since the epoch (the [exp] claim of a
    token is an integer number of seconds). *)

From Stdlib Require Import ZArith List String Ascii Bool Lia FinFun.
From Stdlib Require Import Decimal DecimalString DecimalZ DecimalN DecimalPos
  DecimalFacts.
Import ListNotations.

Open Scope string_scope.
Open Scope Z_scope.

(* ================================================================== *)
(** * Python values *)
(* ================================================================== *)

Module Py.

(** ** Floats

    A Python float is identified by the decimal that [repr] prints for it:
    the shortest digit string that reads back as the same float, with its
    decimal exponent.  [FDec neg m e] is the float [(-1)^neg * m * 10^e].
    The encoding is exact for the values of the floats; [float_of_str]
    below reads a text as the decimal it denotes, which is the float Python
    builds for every text that is itself a [repr] and for every text of at
    most 15 significant digits in the normal range. *)
Inductive pyfloat : Type :=
| FNan
| FInf (neg : bool)
| FDec (neg : bool) (m : N) (e : Z).

(** Mantissa without trailing zeros; zero is [0 * 10^0]. *)
Definition float_norm (m : N) (e : Z) : N * Z :=
  match m with
  | N0 => (N0, 0)
  | _ => let (r, n) := Decimal.nztail (N.to_uint m) in
         (N.of_uint r, e + Z.of_nat n)
  end.

Definition pyfloat_eqb (x y : pyfloat) : bool :=
  match x, y with
  | FNan, FNan => true
  | FInf a, FInf b => Bool.eqb a b
  | FDec a m e, FDec b m' e' =>
      Bool.eqb a b && N.eqb m m' && Z.eqb e e'
  | _, _ => false
  end.

Fixpoint zeros (n : nat) : string :=
  match n with
  | O => ""
  | S k => String "0" (zeros k)
  end.

(** [str(n)] for an int.  (CPython raises [ValueError] on an int of more
    than 4300 digits; the limit is left out here and in [int_of_str], and
    what is stated of every int is stated within it.) *)
Definition int_str (z : Z) : string := NilZero.string_of_int (Z.to_int z).

(** The exponent of the scientific notation: a sign and at least two
    digits, as C's ["%+.02d"]. *)
Definition exp_str (x : Z) : string :=
  let digits := NilZero.string_of_uint (N.to_uint (Z.abs_N x)) in
  (if x <? 0 then "-" else "+") ++
  (if Nat.ltb (String.length digits) 2 then "0" ++ digits else digits).

(** [repr(x)] for a float, which is also [str(x)]: CPython's
    [float_repr_style = 'short'].  Scientific notation is used when the
    decimal point falls at or before position -4 or after position 16;
    otherwise the digits are laid out around the point and [".0"] is
    appended to an integral value. *)
Definition float_repr (x : pyfloat) : string :=
  match x with
  | FNan => "nan"
  | FInf neg => if neg then "-inf" else "inf"
  | FDec neg m e =>
      let (m', e') := float_norm m e in
      let digits := NilZero.string_of_uint (N.to_uint m') in
      let ndigits := String.length digits in
      let decpt := Z.of_nat ndigits + e' in
      let body :=
        if (decpt <=? -4) || (16 <? decpt) then
          substring 0 1 digits ++
          (if Nat.ltb 1 ndigits
           then "." ++ substring 1 (ndigits - 1) digits else "") ++
          "e" ++ exp_str (decpt - 1)
        else if decpt <=? 0 then
          "0." ++ zeros (Z.to_nat (- decpt)) ++ digits
        else if Z.of_nat ndigits <=? decpt then
          digits ++ zeros (Z.to_nat decpt - ndigits) ++ ".0"
        else
          substring 0 (Z.to_nat decpt) digits ++ "." ++
          substring (Z.to_nat decpt) (ndigits - Z.to_nat decpt) digits
      in (if neg then "-" else "") ++ body
  end.

(** ** Values and dictionaries *)

(** A dict keeps its keys in insertion order; keys are strings throughout
    the program. *)
#[warnings="-register-all"]
Inductive pyval : Type :=
| VNone
| VStr (s : string)
| VInt (z : Z)
| VFloat (x : pyfloat)
| VDict (d : list (string * pyval)).

Definition dict : Type := list (string * pyval).

(** [k in d] *)
Fixpoint dict_mem (k : string) (d : dict) : bool :=
  match d with
  | [] => false
  | (k', _) :: r => String.eqb k k' || dict_mem k r
  end.

(** [d.get(k)], with [None] standing for Python's default [None]. *)
Fixpoint dict_get (k : string) (d : dict) : option pyval :=
  match d with
  | [] => None
  | (k', v) :: r => if String.eqb k k' then Some v else dict_get k r
  end.

(** [d[k] = v]: an existing key keeps its position, a new key goes last. *)
Fixpoint dict_set (k : string) (v : pyval) (d : dict) : dict :=
  match d with
  | [] => [(k, v)]
  | (k', v') :: r =>
      if String.eqb k k' then (k', v) :: r else (k', v') :: dict_set k v r
  end.

(** [{k: v for k, v in items}] and [d.update(items)]. *)
Definition dict_update (d : dict) (items : list (string * pyval)) : dict :=
  fold_left (fun acc kv => dict_set (fst kv) (snd kv) acc) items d.

Definition dict_of_items (items : list (string * pyval)) : dict :=
  dict_update [] items.

Definition dict_keys (d : dict) : list string := map fst d.

(** Structural equality of values ([==] on the values the store compares). *)
Fixpoint pyval_eqb (a b : pyval) {struct a} : bool :=
  match a, b with
  | VNone, VNone => true
  | VStr s, VStr t => String.eqb s t
  | VInt x, VInt y => Z.eqb x y
  | VFloat x, VFloat y => pyfloat_eqb x y
  | VDict d, VDict d' =>
      (fix go (l l' : list (string * pyval)) {struct l} : bool :=
         match l, l' with
         | [], [] => true
         | (k, v) :: r, (k', v') :: r' =>
             String.eqb k k' && pyval_eqb v v' && go r r'
         | _, _ => false
         end) d d'
  | _, _ => false
  end.

(** Truthiness, as in [x if item else y]. *)
Definition truthy (v : pyval) : bool :=
  match v with
  | VNone => false
  | VStr s => negb (String.eqb s "")
  | VInt z => negb (Z.eqb z 0)
  | VFloat (FDec _ m _) => negb (N.eqb m 0)
  | VFloat _ => true
  | VDict d => match d with [] => false | _ => true end
  end.

(** [isinstance(v, str)] *)
Definition is_str (v : pyval) : bool :=
  match v with VStr _ => true | _ => false end.

(** ** Exceptions *)

Inductive exn : Type :=
| ValueError (msg : string)
| TypeError (msg : string)
| KeyError (msg : string)
| AttributeError (msg : string)
| ClientError (msg : string)
| HTTPException (status_code : Z) (detail : string)
                (headers : list (string * string)).

(** [str(e)] *)
Definition exn_str (e : exn) : string :=
  match e with
  | ValueError m | TypeError m | KeyError m | AttributeError m
  | ClientError m => m
  | HTTPException c d _ => int_str c ++ ": " ++ d
  end.

Definition result (A : Type) : Type := (A + exn)%type.
Definition Ok {A} (a : A) : result A := inl a.
Definition Err {A} (e : exn) : result A := inr e.

(** ** Text to number *)

(** ['.' in s] for a one-character needle. *)
Fixpoint contains_char (c : ascii) (s : string) : bool :=
  match s with
  | EmptyString => false
  | String a r => Ascii.eqb a c || contains_char c r
  end.

(** [int(s)] on a text: an optional sign and one or more decimal digits.
    (Python's [int] also accepts surrounding blanks, [_] between digits and
    digits outside ASCII; none of them occurs in what [str] prints or in
    the numbers the store returns, and they are left out.  So is the
    [ValueError] of CPython on a text of more than 4300 digits.) *)
Definition int_of_str (s : string) : option Z :=
  match s with
  | String "+" r => option_map Z.of_uint (NilZero.uint_of_string r)
  | _ => option_map Z.of_int (NilZero.int_of_string s)
  end.

Definition is_digit (c : ascii) : bool :=
  (Nat.leb 48 (nat_of_ascii c)) && (Nat.leb (nat_of_ascii c) 57).

(** The longest prefix of digits, and what follows it. *)
Fixpoint span_digits (s : string) : string * string :=
  match s with
  | EmptyString => ("", "")
  | String c r =>
      if is_digit c
      then let (d, t) := span_digits r in (String c d, t)
      else ("", s)
  end.

Definition lower_ascii (c : ascii) : ascii :=
  let n := nat_of_ascii c in
  if Nat.leb 65 n && Nat.leb n 90 then ascii_of_nat (n + 32) else c.

Fixpoint lower (s : string) : string :=
  match s with
  | EmptyString => ""
  | String c r => String (lower_ascii c) (lower r)
  end.

(** [float(s)] on a text: sign, then [inf], [infinity] or [nan] in any
    case, or digits with an optional point and an optional exponent.
    (Blanks and digit separators are left out, as for [int_of_str].) *)
Definition float_of_str (s : string) : option pyfloat :=
  let (neg, s1) :=
    match s with
    | String "-" r => (true, r)
    | String "+" r => (false, r)
    | _ => (false, s)
    end in
  let w := lower s1 in
  if String.eqb w "inf" || String.eqb w "infinity" then Some (FInf neg)
  else if String.eqb w "nan" then Some FNan
  else
    let (ip, s2) := span_digits s1 in
    let (fp, s3) :=
      match s2 with
      | String "." r => span_digits r
      | _ => ("", s2)
      end in
    if String.eqb ip "" && String.eqb fp "" then None
    else
      let ex :=
        match s3 with
        | EmptyString => Some 0
        | String c r =>
            if Ascii.eqb (lower_ascii c) "e" then int_of_str r else None
        end in
      match ex, NilEmpty.uint_of_string (ip ++ fp) with
      | Some x, Some ds =>
          let (m, e) := float_norm (N.of_uint ds)
                          (x - Z.of_nat (String.length fp)) in
          Some (FDec neg m e)
      | _, _ => None
      end.

(** ** [str], [in], subscripts, [int] and [float] on values *)

Definition hex_digit (n : nat) : ascii :=
  ascii_of_nat (if Nat.ltb n 10 then 48 + n else 87 + n).

(** [repr(s)] for a str: single quotes unless the text has a single quote
    and no double quote; the quote, the backslash and the control
    characters are escaped. *)
Definition repr_str (s : string) : string :=
  let dq := ascii_of_nat 34 in
  let q := if contains_char "'" s && negb (contains_char dq s)
           then dq else "'"%char in
  let esc (c : ascii) : string :=
    let n := nat_of_ascii c in
    if Ascii.eqb c q || Ascii.eqb c "\" then String "\" (String c "")
    else if Nat.eqb n 9 then "\t"
    else if Nat.eqb n 10 then "\n"
    else if Nat.eqb n 13 then "\r"
    else if Nat.ltb n 32 || Nat.eqb n 127
         then "\x" ++ String (hex_digit (n / 16)) (String (hex_digit (n mod 16)) "")
    else String c "" in
  String q (concat "" (map esc (list_ascii_of_string s))) ++ String q "".

Fixpoint repr (v : pyval) : string :=
  match v with
  | VNone => "None"
  | VStr s => repr_str s
  | VInt z => int_str z
  | VFloat x => float_repr x
  | VDict d =>
      "{" ++ concat ", "
        ((fix go (l : list (string * pyval)) : list string :=
            match l with
            | [] => []
            | (k, w) :: r => (repr_str k ++ ": " ++ repr w) :: go r
            end) d) ++ "}"
  end.

(** [str(v)] *)
Definition py_str (v : pyval) : string :=
  match v with
  | VStr s => s
  | _ => repr v
  end.

Definition type_name (v : pyval) : string :=
  match v with
  | VNone => "NoneType"
  | VStr _ => "str"
  | VInt _ => "int"
  | VFloat _ => "float"
  | VDict _ => "dict"
  end.

(** [needle in s] for two strs. *)
Definition contains_str (needle s : string) : bool :=
  match index 0 needle s with
  | Some _ => true
  | None => false
  end.

(** [k in v]: key membership in a dict, substring in a str, a [TypeError]
    on the values that are not containers. *)
Definition py_in (k : string) (v : pyval) : result bool :=
  match v with
  | VDict d => Ok (dict_mem k d)
  | VStr s => Ok (contains_str k s)
  | _ => Err (TypeError ("argument of type '" ++ type_name v ++
                         "' is not iterable"))
  end.

(** [v[k]] for a str subscript [k]. *)
Definition py_getitem (v : pyval) (k : string) : result pyval :=
  match v with
  | VDict d =>
      match dict_get k d with
      | Some w => Ok w
      | None => Err (KeyError (repr_str k))
      end
  | VStr _ => Err (TypeError "string indices must be integers")
  | _ => Err (TypeError ("'" ++ type_name v ++
                         "' object is not subscriptable"))
  end.

(** The integral part of a float, toward zero. *)
Definition float_trunc (neg : bool) (m : N) (e : Z) : Z :=
  let a := if 0 <=? e then Z.of_N m * 10 ^ e
           else Z.of_N m / 10 ^ (- e) in
  if neg then - a else a.

(** [int(v)] *)
Definition py_int (v : pyval) : result pyval :=
  match v with
  | VStr s =>
      match int_of_str s with
      | Some z => Ok (VInt z)
      | None => Err (ValueError
                  ("invalid literal for int() with base 10: " ++ repr_str s))
      end
  | VInt z => Ok (VInt z)
  | VFloat (FDec neg m e) => Ok (VInt (float_trunc neg m e))
  | VFloat FNan => Err (ValueError "cannot convert float NaN to integer")
  | VFloat (FInf _) =>
      Err (ValueError "cannot convert float infinity to integer")
  | _ => Err (TypeError
            ("int() argument must be a string, a bytes-like object or a " ++
             "real number, not '" ++ type_name v ++ "'"))
  end.

(** [float(v)] *)
Definition py_float (v : pyval) : result pyval :=
  match v with
  | VStr s =>
      match float_of_str s with
      | Some x => Ok (VFloat x)
      | None => Err (ValueError
                  ("could not convert string to float: " ++ repr_str s))
      end
  | VInt z =>
      let (m, e) := float_norm (Z.abs_N z) 0 in
      Ok (VFloat (FDec (z <? 0) m e))
  | VFloat x => Ok (VFloat x)
  | _ => Err (TypeError
            ("float() argument must be a string or a real number, not '" ++
             type_name v ++ "'"))
  end.

(** Sequencing of computations that may raise. *)
Definition rbind {A B} (r : result A) (k : A -> result B) : result B :=
  match r with
  | inl a => k a
  | inr e => inr e
  end.

End Py.

Import Py.

Declare Scope result_scope.
Delimit Scope result_scope with result.
Notation "x <- e ;; k" := (rbind e (fun x => k))
  (at level 61, e at next level, right associativity) : result_scope.

(* ================================================================== *)
(** * PyJWT *)
(* ================================================================== *)

Module Jwt.

(** A token string is either not a JWS at all, or the compact form of a
    header naming the algorithm, a payload, and the HMAC of both under some
    key.  The model is ideal: a signature checks under the key that made it
    and under no other. *)
Inductive token : Type :=
| Malformed (raw : string)
| Signed (alg : string) (key : string) (payload : dict).

Inductive PyJWTError : Type :=
| DecodeError
| InvalidAlgorithmError
| InvalidSignatureError
| ExpiredSignatureError.

(** [jwt.encode(payload, key, algorithm=alg)] *)
Definition encode (payload : dict) (key : string) (alg : string) : token :=
  Signed alg key payload.

(** Modelled from the spec: PyJWT is a library outside the repository.
    [jwt.decode(token, key, algorithms=algs)] at clock reading [now], with
    PyJWT's default options: the signature is checked, then [exp] when the
    payload has one ([exp <= now] is expired, no leeway).  This is what
    the library does on a payload with no other claims than a str [sub]
    and an int [exp], as [login] signs them.  Its other checks are left
    out: [nbf], [iat], [aud] and the type of [sub], which refuse more
    tokens, and the reading of [exp] through [int], which accepts a float
    where this model refuses. *)
Definition decode (t : token) (key : string) (algs : list string) (now : Z)
  : dict + PyJWTError :=
  match t with
  | Malformed _ => inr DecodeError
  | Signed alg k payload =>
      if negb (existsb (String.eqb alg) algs) then inr InvalidAlgorithmError
      else if negb (String.eqb k key) then inr InvalidSignatureError
      else
        match dict_get "exp" payload with
        | None => inl payload
        | Some (VInt exp) =>
            if exp <=? now then inr ExpiredSignatureError else inl payload
        | Some _ => inr DecodeError
        end
  end.

End Jwt.

(* ================================================================== *)
(** * app/auth.py *)
(* ================================================================== *)

Module Auth.

(** The module globals, set once when the module is imported: [utc_now] is
    the clock reading at that moment, the other two come from the
    environment. *)
Record Globals : Type := {
  utc_now : Z;
  SECRET_KEY : string;
  ACCESS_TOKEN_EXPIRE_MINUTES : Z
}.

Definition ALGORITHM : string := "HS256".

(** [timedelta(minutes=m)], in seconds. *)
Definition timedelta_minutes (m : Z) : Z := 60 * m.

(** A [timedelta] is false exactly when it is zero. *)
Definition timedelta_truthy (d : option Z) : bool :=
  match d with
  | Some x => negb (x =? 0)
  | None => false
  end.

Definition create_access_token (g : Globals) (data : dict)
    (expires_delta : option Z) : Jwt.token :=
  let to_encode := data in
  let expire :=
    if timedelta_truthy expires_delta
    then utc_now g + match expires_delta with Some d => d | None => 0 end
    else utc_now g + timedelta_minutes 15 in
  let to_encode := dict_update to_encode [("exp", VInt expire)] in
  Jwt.encode to_encode (SECRET_KEY g) ALGORITHM.

Definition credentials_exception : exn :=
  HTTPException 401 "Could not validate credentials"
    [("WWW-Authenticate", "Bearer")].

(** [verify_token] at clock reading [now]. *)
Definition verify_token (g : Globals) (now : Z) (token : Jwt.token)
  : result pyval :=
  match Jwt.decode token (SECRET_KEY g) [ALGORITHM] now with
  | inl payload =>
      match dict_get "sub" payload with
      | None | Some VNone => Err credentials_exception
      | Some username => Ok username
      end
  | inr _ => Err credentials_exception
  end.

End Auth.

(* ================================================================== *)
(** * The backing store *)
(* ================================================================== *)

Module Dynamo.

(** The client calls of the handlers, with their keyword arguments. *)
Inductive call : Type :=
| put_item (TableName : string) (Item : dict)
| get_item (TableName : string) (Key : dict)
| update_item (TableName : string) (Key : dict) (UpdateExpression : string)
              (ExpressionAttributeValues : dict) (ReturnValues : string)
| delete_item (TableName : string) (Key : dict).

(** A handler body: it returns, raises, or awaits a client call and goes
    on with the response or the exception of the call. *)
Inductive prog (A : Type) : Type :=
| Ret (a : A)
| Raise (e : exn)
| Await (c : call) (k : result dict -> prog A).

Arguments Ret {A} a.
Arguments Raise {A} e.
Arguments Await {A} c k.

Fixpoint bind {A B} (p : prog A) (f : A -> prog B) : prog B :=
  match p with
  | Ret a => f a
  | Raise e => Raise e
  | Await c k => Await c (fun r => bind (k r) f)
  end.

(** [await client.c(...)] *)
Definition await (c : call) : prog dict :=
  Await c (fun r => match r with inl d => Ret d | inr e => Raise e end).

Definition lift {A} (r : result A) : prog A :=
  match r with
  | inl a => Ret a
  | inr e => Raise e
  end.

(** [try: p except Exception as e: raise h(e)] *)
Fixpoint try_except {A} (p : prog A) (h : exn -> exn) : prog A :=
  match p with
  | Ret a => Ret a
  | Raise e => Raise (h e)
  | Await c k => Await c (fun r => try_except (k r) h)
  end.

(** The calls a program issues and its outcome, against a store whose
    behaviour is [exec]. *)
Fixpoint run {S A} (exec : S -> call -> S * result dict) (st : S)
    (p : prog A) : S * list call * result A :=
  match p with
  | Ret a => (st, [], Ok a)
  | Raise e => (st, [], Err e)
  | Await c k =>
      let (st1, r) := exec st c in
      let '(st2, cs, out) := run exec st1 (k r) in
      (st2, c :: cs, out)
  end.

(** ** A reference store *)

(** A table has a key schema (the names of its key attributes) and items. *)
Record table : Type := {
  schema : list string;
  items : list dict
}.

Definition store : Type := list (string * table).

Fixpoint find_table (name : string) (st : store) : option table :=
  match st with
  | [] => None
  | (n, t) :: r => if String.eqb name n then Some t else find_table name r
  end.

Fixpoint set_table (name : string) (t : table) (st : store) : store :=
  match st with
  | [] => [(name, t)]
  | (n, t') :: r =>
      if String.eqb name n then (n, t) :: r else (n, t') :: set_table name t r
  end.

(** [key] names exactly the key attributes. *)
Definition valid_key (sch : list string) (key : dict) : bool :=
  Nat.eqb (List.length key) (List.length sch) &&
  forallb (fun a => dict_mem a key) sch.

(** [item] carries the key attributes of [key], with equal values. *)
Definition has_key (sch : list string) (key item : dict) : bool :=
  forallb (fun a =>
             match dict_get a key, dict_get a item with
             | Some x, Some y => pyval_eqb x y
             | _, _ => false
             end) sch.

Definition lookup (t : table) (key : dict) : option dict :=
  find (has_key (schema t) key) (items t).

Definition remove (t : table) (key : dict) : list dict :=
  filter (fun it => negb (has_key (schema t) key it)) (items t).

Definition validation (msg : string) : exn :=
  ClientError ("ValidationException: " ++ msg).

Definition not_found : exn :=
  ClientError "ResourceNotFoundException: Requested resource not found".

(** [s.split(sep)] for a non-empty separator. *)
Fixpoint split_go (sep s : string) (skip : nat) (cur : string)
  : list string :=
  match s with
  | EmptyString => [cur]
  | String c r =>
      match skip with
      | S n => split_go sep r n cur
      | O =>
          if prefix sep s
          then cur :: split_go sep r (String.length sep - 1) ""
          else split_go sep r 0 (cur ++ String c "")
      end
  end.

Definition split (sep s : string) : list string := split_go sep s 0 "".

(** The update expressions of the handlers: ["SET "] and then one or more
    clauses [path = :name] separated by [", "].  Everything else is a
    syntax error, and so is ["SET "] with no clause. *)
Definition parse_clause (cl : string) : option (string * string) :=
  match split " = " cl with
  | [path; name] =>
      if negb (String.eqb path "") && prefix ":" name
      then Some (path, name) else None
  | _ => None
  end.

Fixpoint parse_clauses (cls : list string) : option (list (string * string)) :=
  match cls with
  | [] => Some []
  | cl :: r =>
      match parse_clause cl, parse_clauses r with
      | Some c, Some cs => Some (c :: cs)
      | _, _ => None
      end
  end.

Definition parse_set (expr : string) : option (list (string * string)) :=
  if prefix "SET " expr then
    let body := substring 4 (String.length expr - 4) expr in
    if String.eqb body "" then None else parse_clauses (split ", " body)
  else None.

(** The assignments of the clauses, each with the value its placeholder
    names. *)
Fixpoint resolve (cls : list (string * string)) (values : dict)
  : option (list (string * pyval)) :=
  match cls with
  | [] => Some []
  | (path, name) :: r =>
      match dict_get name values, resolve r values with
      | Some v, Some vs => Some ((path, v) :: vs)
      | _, _ => None
      end
  end.

(** Modelled from the spec: the backing store is a service outside the
    repository.  [put] writes a full item with overwrite semantics and no
    existence check; [getByKey] is a point lookup and an absent key gives
    an empty result, not an error; [deleteByKey] is idempotent; an update
    applies the SET instruction to the single item and returns the new
    values of only the updated attributes, and a malformed instruction is
    rejected.  A call on a missing table, or with a key that does not fit
    the key schema, is rejected as well.  Typed values are kept as they
    are sent. *)
Definition exec (st : store) (c : call) : store * result dict :=
  let on_table (tn : string) (f : table -> store * result dict) :=
    match find_table tn st with
    | Some t => f t
    | None => (st, Err not_found)
    end in
  let bad_key :=
    validation "The provided key element does not match the schema" in
  match c with
  | put_item tn item =>
      on_table tn (fun t =>
        if forallb (fun a => dict_mem a item) (schema t)
        then (set_table tn {| schema := schema t;
                              items := remove t item ++ [item] |} st, Ok [])
        else (st, Err (validation "Missing the key in the item")))
  | get_item tn key =>
      on_table tn (fun t =>
        if valid_key (schema t) key
        then (st, Ok match lookup t key with
                     | Some it => [("Item", VDict it)]
                     | None => []
                     end)
        else (st, Err bad_key))
  | delete_item tn key =>
      on_table tn (fun t =>
        if valid_key (schema t) key
        then (set_table tn {| schema := schema t;
                              items := remove t key |} st, Ok [])
        else (st, Err bad_key))
  | update_item tn key expr values rv =>
      on_table tn (fun t =>
        if valid_key (schema t) key then
          match parse_set expr with
          | None =>
              (st, Err (validation "Invalid UpdateExpression: Syntax error"))
          | Some cls =>
              match resolve cls values with
              | None =>
                  (st, Err (validation
                     "Invalid UpdateExpression: An expression attribute value used in expression is not defined"))
              | Some sets =>
                  let old := match lookup t key with
                             | Some it => it
                             | None => key
                             end in
                  let new := dict_update old sets in
                  (set_table tn {| schema := schema t;
                                   items := remove t key ++ [new] |} st,
                   Ok (if String.eqb rv "UPDATED_NEW"
                       then [("Attributes", VDict (dict_of_items sets))]
                       else []))
              end
          end
        else (st, Err bad_key))
  end.

(** Modelled from the spec: the three tables of the deployment, named
    Staff, Shifts and Expenses, with the primary keys of the data model
    (the table definitions are not part of the repository). *)
Definition deployed : store :=
  [ ("Staff", {| schema := ["staffID"]; items := [] |});
    ("Shifts", {| schema := ["shiftID"; "startDate"]; items := [] |});
    ("Expenses", {| schema := ["expenseID"; "date"]; items := [] |}) ].

End Dynamo.

Declare Scope prog_scope.
Delimit Scope prog_scope with prog.
Notation "x <- e ;; k" := (Dynamo.bind e (fun x => k))
  (at level 61, e at next level, right associativity) : prog_scope.

(* ================================================================== *)
(** * app/main.py *)
(* ================================================================== *)

Module Main.

Import Dynamo.

(** [API_USERNAME] and [API_PASSWORD]: [os.getenv] gives [None] for a
    variable that is not set. *)
Record Env : Type := {
  API_USERNAME : option string;
  API_PASSWORD : option string
}.

(** [{'S': s}] and [{'N': s}] *)
Definition S_ (s : string) : pyval := VDict [("S", VStr s)].
Definition N_ (s : string) : pyval := VDict [("N", VStr s)].

(** Helper function for deserializing DynamoDB items - Update Route *)
Definition deserialize_dynamodb_item (item : pyval) : result pyval :=
  (has_s <- py_in "S" item ;;
   if has_s then py_getitem item "S"
   else
     has_n <- py_in "N" item ;;
     if has_n then
       n <- py_getitem item "N" ;;
       has_dot <- py_in "." n ;;
       if has_dot then py_float n else py_int n
     else Err (ValueError "Unsupported DynamoDB data type"))%result.

(** ** Request and response models *)

Record Staff : Type := {
  staffID : string;
  fullName : string;
  employmentType : string;
  jobTitle : string;
  hourlyRate : pyfloat
}.

(** [updates: Dict[str, str]]: the members of the JSON object, every value
    a str.  [updates_dict] is the dict the handlers see. *)
Record UpdateStaffRequest : Type := {
  updates : list (string * string)
}.

Definition updates_dict (request : UpdateStaffRequest) : dict :=
  dict_of_items (map (fun kv => (fst kv, VStr (snd kv))) (updates request)).

Record Token : Type := {
  access_token : Jwt.token;
  token_type : string
}.

Record OAuth2PasswordRequestForm : Type := {
  username : string;
  password : string
}.

(** [s != v] for a str [s] and an [Optional[str]] [v]. *)
Definition str_ne (s : string) (v : option string) : bool :=
  match v with
  | Some t => negb (String.eqb s t)
  | None => true
  end.

(** ** Login route *)

Definition login (env : Env) (g : Auth.Globals)
    (form_data : OAuth2PasswordRequestForm) : result Token :=
  if str_ne (username form_data) (API_USERNAME env)
     || str_ne (password form_data) (API_PASSWORD env)
  then Err (HTTPException 401 "Incorrect username or password"
              [("WWW-Authenticate", "Bearer")])
  else
    let access_token_expires :=
      Auth.timedelta_minutes (Auth.ACCESS_TOKEN_EXPIRE_MINUTES g) in
    let access_token :=
      Auth.create_access_token g [("sub", VStr (username form_data))]
        (Some access_token_expires) in
    Ok {| access_token := access_token; token_type := "bearer" |}.

(** ** Shared pieces of the handlers *)

(** [except Exception as e: raise HTTPException(status_code=500,
    detail=str(e))] *)
Definition internal_error (e : exn) : exn :=
  HTTPException 500 (exn_str e) [].

(** ["SET " + ", ".join(f"{k} = :{k}" for k in updates.keys())] *)
Definition update_expression_of (updates : dict) : string :=
  "SET " ++ concat ", " (map (fun k => k ++ " = :" ++ k) (dict_keys updates)).

(** [{'S': v} if isinstance(v, str) else {'N': str(v)}] *)
Definition typed_value (v : pyval) : pyval :=
  if is_str v then VDict [("S", v)] else VDict [("N", VStr (py_str v))].

(** [{f":{k}": {'S': v} if isinstance(v, str) else {'N': str(v)}
      for k, v in updates.items()}] *)
Definition expression_attribute_values_of (updates : dict) : dict :=
  dict_of_items
    (map (fun kv => (":" ++ fst kv, typed_value (snd kv))) updates).

(** [{k: deserialize_dynamodb_item(v) for k, v in attributes.items()}] *)
Fixpoint deserialize_each (its : list (string * pyval)) (acc : dict)
  : result dict :=
  match its with
  | [] => Ok acc
  | (k, v) :: r =>
      (x <- deserialize_dynamodb_item v ;;
       deserialize_each r (dict_set k x acc))%result
  end.

Definition deserialize_attributes (attributes : pyval) : result pyval :=
  if truthy attributes then
    match attributes with
    | VDict d => (out <- deserialize_each d [] ;; Ok (VDict out))%result
    | _ => Err (AttributeError
                  ("'" ++ type_name attributes ++
                   "' object has no attribute 'items'"))
    end
  else Ok (VDict []).

(** [response.get(name, None)] *)
Definition response_get (name : string) (response : dict) : pyval :=
  match dict_get name response with
  | Some v => v
  | None => VNone
  end.

(** The body shared by the three get routes, after the client call. *)
Definition decode_item (response : dict) : prog pyval :=
  let item := response_get "Item" response in
  if truthy item then lift (deserialize_dynamodb_item item)
  else Ret (VDict []).

Definition message (text : string) : pyval :=
  VDict [("message", VStr text)].

(** ** Staff *)

Definition create_staff (staff : Staff) (token : pyval) : prog pyval :=
  try_except
    (let item :=
       [ ("staffID", S_ (staffID staff));
         ("fullName", S_ (fullName staff));
         ("employmentType", S_ (employmentType staff));
         ("jobTitle", S_ (jobTitle staff));
         ("hourlyRate", N_ (py_str (VFloat (hourlyRate staff)))) ] in
     _ <- await (put_item "Staff" item) ;;
     Ret (message "Staff created successfully"))%prog
    internal_error.

Definition get_staff (staff_id : string) (token : pyval) : prog pyval :=
  try_except
    (response <- await (get_item "Staff" [("staffID", S_ staff_id)]) ;;
     decode_item response)%prog
    internal_error.

(** In [update_staff] the call is awaited after the [async with] block;
    the model does not follow the life of the client object, so the three
    update handlers have the same shape. *)
Definition update_staff (staff_id : string) (request : UpdateStaffRequest)
    (token : pyval) : prog pyval :=
  try_except
    (let updates := updates_dict request in
     let update_expression := update_expression_of updates in
     let expression_attribute_values :=
       dict_of_items (map (fun kv => (":" ++ fst kv, snd kv)) updates) in
     let update_expression := update_expression_of updates in
     let expression_attribute_values :=
       expression_attribute_values_of updates in
     response <- await (update_item "Staff" [("staffID", S_ staff_id)]
                          update_expression expression_attribute_values
                          "UPDATED_NEW") ;;
     let attributes := response_get "Attributes" response in
     lift (deserialize_attributes attributes))%prog
    internal_error.

Definition delete_staff (staff_id : string) (token : pyval) : prog pyval :=
  try_except
    (_ <- await (delete_item "Staff" [("staffID", S_ staff_id)]) ;;
     Ret (message "Staff deleted successfully"))%prog
    internal_error.

(** ** Shifts *)

Definition get_shift (staff_id start_date : string) (token : pyval)
  : prog pyval :=
  try_except
    (response <- await (get_item "Shifts"
                          [("shiftID", S_ "shift_id");
                           ("startDate", S_ start_date)]) ;;
     decode_item response)%prog
    internal_error.

Definition update_shift (staff_id start_date : string)
    (request : UpdateStaffRequest) (token : pyval) : prog pyval :=
  try_except
    (let updates := updates_dict request in
     let update_expression := update_expression_of updates in
     let expression_attribute_values :=
       dict_of_items (map (fun kv => (":" ++ fst kv, snd kv)) updates) in
     let update_expression := update_expression_of updates in
     let expression_attribute_values :=
       expression_attribute_values_of updates in
     response <- await (update_item "Shifts"
                          [("shiftID", S_ "shift_id");
                           ("startDate", S_ start_date)]
                          update_expression expression_attribute_values
                          "UPDATED_NEW") ;;
     let attributes := response_get "Attributes" response in
     lift (deserialize_attributes attributes))%prog
    internal_error.

Definition delete_shift (staff_id start_date : string) (token : pyval)
  : prog pyval :=
  try_except
    (_ <- await (delete_item "Shifts"
                   [("shiftID", S_ "shift_id");
                    ("startDate", S_ start_date)]) ;;
     Ret (message "Shift deleted successfully"))%prog
    internal_error.

(** ** Expenses *)

Definition get_expense (expense_id date : string) (token : pyval)
  : prog pyval :=
  try_except
    (response <- await (get_item "Expenses"
                          [("expenseID", S_ expense_id);
                           ("date", S_ date)]) ;;
     decode_item response)%prog
    internal_error.

Definition update_expense (expense_id date : string)
    (request : UpdateStaffRequest) (token : pyval) : prog pyval :=
  try_except
    (let updates := updates_dict request in
     let update_expression := update_expression_of updates in
     let expression_attribute_values :=
       dict_of_items (map (fun kv => (":" ++ fst kv, snd kv)) updates) in
     let update_expression := update_expression_of updates in
     let expression_attribute_values :=
       expression_attribute_values_of updates in
     response <- await (update_item "Expenses"
                          [("expenseID", S_ expense_id);
                           ("date", S_ date)]
                          update_expression expression_attribute_values
                          "UPDATED_NEW") ;;
     let attributes := response_get "Attributes" response in
     lift (deserialize_attributes attributes))%prog
    internal_error.

Definition delete_expense (expense_id date : string) (token : pyval)
  : prog pyval :=
  try_except
    (_ <- await (delete_item "Expenses"
                   [("expenseID", S_ expense_id);
                    ("date", S_ date)]) ;;
     Ret (message "Expense deleted successfully"))%prog
    internal_error.

(** ** What the client of the HTTP server sees *)

(** A returned value is sent with status 200; an [HTTPException] with its
    own status and its detail; any other exception is a plain 500. *)
Definition http_response (out : result pyval) : Z * pyval :=
  match out with
  | inl body => (200, body)
  | inr (HTTPException code detail _) =>
      (code, VDict [("detail", VStr detail)])
  | inr _ => (500, VStr "Internal Server Error")
  end.

(** One request served against the reference store. *)
Definition serve (st : store) (p : prog pyval)
  : store * list call * (Z * pyval) :=
  let '(st', calls, out) := run exec st p in
  (st', calls, http_response out).

End Main.

(* ================================================================== *)
(** * app/main.py, the other routes *)
(* ================================================================== *)

Module MainRest.

Import Dynamo Main.

Record Shift : Type := {
  shift_staffID : string;
  startDate : string;
  endDate : string;
  house : string;
  shift : string;
  shiftStart : string;
  shiftEnd : string;
  overtime : pyfloat;
  totalHours : pyfloat;
  totalWage : pyfloat;
  absence : string;
  absenceStatus : string
}.

Record Expense : Type := {
  expenseID : string;
  date : string;
  youngPersonWeeklyMoney : pyfloat;
  maintenance : pyfloat;
  IT : pyfloat;
  misc : pyfloat;
  pettyCash : pyfloat;
  general : pyfloat
}.

(** [str(x)] of a float field. *)
Definition fstr (x : pyfloat) : string := py_str (VFloat x).

(** ** General view *)

Definition root : pyval :=
  VDict [("message", VStr "Welcome to JTA Residential Care API")].

(** ** Create routes of Shift and Expense *)

(** The item of [create_shift]; [staffID] is the field of the model
    ([shift_staffID] here, the name [staffID] being taken by [Staff]). *)
Definition shift_item (s : Shift) : dict :=
  [ ("staffID", S_ (shift_staffID s));
    ("startDate", S_ (startDate s));
    ("endDate", S_ (endDate s));
    ("house", S_ (house s));
    ("shift", S_ (shift s));
    ("shiftStart", S_ (shiftStart s));
    ("shiftEnd", S_ (shiftEnd s));
    ("overtime", N_ (fstr (overtime s)));
    ("totalHours", N_ (fstr (totalHours s)));
    ("totalWage", N_ (fstr (totalWage s)));
    ("absence", S_ (py_str (VStr (absence s))));
    ("absenceStatus", S_ (py_str (VStr (absenceStatus s)))) ].

(** As in [update_staff], the call is awaited after the [async with]
    block. *)
Definition create_shift (s : Shift) (token : pyval) : prog pyval :=
  try_except
    (let item := shift_item s in
     _ <- await (put_item "Shifts" item) ;;
     Ret (message "Shift created successfully"))%prog
    internal_error.

Definition expense_item (e : Expense) : dict :=
  [ ("expenseID", S_ (expenseID e));
    ("date", S_ (date e));
    ("youngPersonWeeklyMoney", N_ (fstr (youngPersonWeeklyMoney e)));
    ("maintenance", N_ (fstr (maintenance e)));
    ("IT", N_ (fstr (IT e)));
    ("misc", N_ (fstr (misc e)));
    ("pettyCash", N_ (fstr (pettyCash e)));
    ("general", N_ (fstr (general e))) ].

Definition create_expense (e : Expense) (token : pyval) : prog pyval :=
  try_except
    (let item := expense_item e in
     _ <- await (put_item "Expenses" item) ;;
     Ret (message "Expense created successfully"))%prog
    internal_error.

(** ** List routes *)

(** The answer of [client.scan]: [Items] is absent or a list of items. *)
Record scan_response : Type := {
  Items : option (list dict)
}.

Section ListRoutes.

(** The values boto3's [TypeDeserializer] produces, and its [deserialize]:
    the class is not part of the repository and is taken as a parameter. *)
Context {V : Type}.
Variable deserialize : pyval -> result V.

(** [d[k] = v] on a dict of deserialized values. *)
Fixpoint out_set (k : string) (v : V) (d : list (string * V))
  : list (string * V) :=
  match d with
  | [] => [(k, v)]
  | (k', v') :: r =>
      if String.eqb k k' then (k', v) :: r else (k', v') :: out_set k v r
  end.

(** [{k: deserializer.deserialize(v) for k, v in item.items()}] *)
Fixpoint deserialize_attrs (its : list (string * pyval))
    (acc : list (string * V)) : result (list (string * V)) :=
  match its with
  | [] => Ok acc
  | (k, v) :: r =>
      (x <- deserialize v ;; deserialize_attrs r (out_set k x acc))%result
  end.

(** Helper function to deserialize DynamoDB items *)
Definition deserialize_dynamodb_item_for_list (item : dict)
  : result (list (string * V)) :=
  deserialize_attrs item [].

(** [[deserialize_dynamodb_item_for_list(item) for item in items]] *)
Fixpoint deserialize_items (items : list dict)
  : result (list (list (string * V))) :=
  match items with
  | [] => Ok []
  | item :: r =>
      (x <- deserialize_dynamodb_item_for_list item ;;
       xs <- deserialize_items r ;;
       Ok (x :: xs))%result
  end.

(** The body of a list route once the scan has answered or raised. *)
Definition list_body (answer : result scan_response)
  : result (list (list (string * V))) :=
  let body :=
    (response <- answer ;;
     let items := match Items response with
                  | Some l => l
                  | None => []
                  end in
     deserialized_items <- deserialize_items items ;;
     Ok (match deserialized_items with
         | [] => []
         | _ => deserialized_items
         end))%result in
  match body with
  | inl out => Ok out
  | inr e => Err (internal_error e)
  end.

(** A list route: the table it scans, and its body. *)
Record list_route : Type := {
  scanned : string;
  body : result scan_response -> result (list (list (string * V)))
}.

Definition get_all_staff : list_route :=
  {| scanned := "Staff"; body := list_body |}.

Definition get_all_shifts : list_route :=
  {| scanned := "Shifts"; body := list_body |}.

Definition get_all_expenses : list_route :=
  {| scanned := "Expenses"; body := list_body |}.

(** A list route served by a client whose [scan] is [scan]. *)
Definition serve_list (scan : string -> result scan_response)
    (r : list_route) : result (list (list (string * V))) :=
  body r (scan (scanned r)).

End ListRoutes.

End MainRest.

(* ================================================================== *)
(** * Observations and sample data *)
(* ================================================================== *)

Import Dynamo Main.

(** The [exp] claim a token carries. *)
Definition token_exp (t : Jwt.token) : option pyval :=
  match t with
  | Jwt.Signed _ _ payload => dict_get "exp" payload
  | Jwt.Malformed _ => None
  end.

(** The configured lifetime of a token, in seconds. *)
Definition ttl_seconds (g : Auth.Globals) : Z :=
  Auth.timedelta_minutes (Auth.ACCESS_TOKEN_EXPIRE_MINUTES g).

(** The calls a program issues, and what it returns or raises. *)
Definition calls_of {S A} (exec : S -> call -> S * result dict) (st : S)
    (p : prog A) : list call :=
  snd (fst (run exec st p)).

Definition outcome_of {S A} (exec : S -> call -> S * result dict) (st : S)
    (p : prog A) : result A :=
  snd (run exec st p).

(** The value table of an update call. *)
Definition sent_values (c : call) : dict :=
  match c with
  | update_item _ _ _ values _ => values
  | _ => []
  end.

(** What an update handler does with the answer of the store. *)
Definition update_outcome (r : result dict) : result pyval :=
  match r with
  | inl response =>
      match deserialize_attributes (response_get "Attributes" response) with
      | inl v => Ok v
      | inr e => Err (internal_error e)
      end
  | inr e => Err (internal_error e)
  end.

Definition get_outcome (r : result dict) : result pyval :=
  match r with
  | inl response =>
      if truthy (response_get "Item" response)
      then match deserialize_dynamodb_item (response_get "Item" response)
           with
           | inl v => Ok v
           | inr e => Err (internal_error e)
           end
      else Ok (VDict [])
  | inr e => Err (internal_error e)
  end.

(** The key of a Staff item. *)
Definition staff_key (staff_id : string) : dict :=
  [("staffID", S_ staff_id)].

(** The full composite keys of a shift and of an expense. *)
Definition shift_key (shift_id start_date : string) : dict :=
  [("shiftID", S_ shift_id); ("startDate", S_ start_date)].

Definition expense_key (expense_id date : string) : dict :=
  [("expenseID", S_ expense_id); ("date", S_ date)].

(** The call of an update route. *)
Definition update_call (tn : string) (key : dict)
    (request : UpdateStaffRequest) : call :=
  update_item tn key
    (update_expression_of (updates_dict request))
    (expression_attribute_values_of (updates_dict request))
    "UPDATED_NEW".

(** The item [create_staff] writes for a Staff record. *)
Definition staff_item (staff : Staff) : dict :=
  [ ("staffID", S_ (staffID staff));
    ("fullName", S_ (fullName staff));
    ("employmentType", S_ (employmentType staff));
    ("jobTitle", S_ (jobTitle staff));
    ("hourlyRate", N_ (py_str (VFloat (hourlyRate staff)))) ].

(** The store after that item was put in a Staff table [t] of [st]. *)
Definition after_create (staff : Staff) (st : store) (t : table) : store :=
  set_table "Staff"
    {| schema := schema t; items := remove t (staff_item staff) ++ [staff_item staff] |}
    st.

(** A rejection of call [c] by the store comes back from [p] as HTTP 500
    with the text of the store as detail. *)
Definition rejection_is_500 {S} (exec : S -> call -> S * result dict)
    (st : S) (c : call) (p : prog pyval) : Prop :=
  forall st' e,
    exec st c = (st', Err e) ->
    http_response (outcome_of exec st p)
      = (500, VDict [("detail", VStr (exn_str e))]).

(** The classification by content that claim C3 describes: a text is purely
    numeric when it reads as an integer or as a finite decimal number, and
    then it is sent as a number. *)
Definition purely_numeric (s : string) : bool :=
  match int_of_str s, float_of_str s with
  | Some _, _ => true
  | None, Some (FDec _ _ _) => true
  | _, _ => false
  end.

Definition classify_by_content (s : string) : pyval :=
  if purely_numeric s then N_ s else S_ s.

(** Writing a float as [create_staff] does and decoding the typed value
    gives the float back. *)
Definition float_round_trips (x : pyfloat) : bool :=
  match deserialize_dynamodb_item (N_ (py_str (VFloat x))) with
  | inl (VFloat y) => pyfloat_eqb x y
  | _ => false
  end.

(** The floats [m * 10^e] and their opposites, for [m] below 60 and [e]
    from -25 to 25. *)
Definition float_sample : list pyfloat :=
  flat_map (fun m =>
    flat_map (fun e =>
      let (m', e') := float_norm (N.of_nat m) (Z.of_nat e - 25) in
      [FDec false m' e'; FDec true m' e'])
      (seq 0 51))
    (seq 0 60).

(** A process imported at second 1000, serving a login at second 5000. *)
Definition env0 : Env :=
  {| API_USERNAME := Some "admin"; API_PASSWORD := Some "secret" |}.

Definition g0 : Auth.Globals :=
  {| Auth.utc_now := 1000;
     Auth.SECRET_KEY := "k3y";
     Auth.ACCESS_TOKEN_EXPIRE_MINUTES := 15 |}.

Definition form0 : OAuth2PasswordRequestForm :=
  {| username := "admin"; password := "secret" |}.

Definition tok0 : Token :=
  {| access_token :=
       Jwt.Signed "HS256" "k3y" [("sub", VStr "admin"); ("exp", VInt 1900)];
     token_type := "bearer" |}.

(** The Staff record of the scenario, and the store after its creation. *)
Definition ann : Staff :=
  {| staffID := "S1"; fullName := "Ann"; employmentType := "FT";
     jobTitle := "Nurse"; hourlyRate := FDec false 155 (-1) |}.

Definition ann_item : dict :=
  [ ("staffID", S_ "S1"); ("fullName", S_ "Ann");
    ("employmentType", S_ "FT"); ("jobTitle", S_ "Nurse");
    ("hourlyRate", N_ "15.5") ].

Definition staff_table_with_ann : table :=
  {| schema := ["staffID"]; items := [ann_item] |}.

Definition store_with_ann : store :=
  [ ("Staff", staff_table_with_ann);
    ("Shifts", {| schema := ["shiftID"; "startDate"]; items := [] |});
    ("Expenses", {| schema := ["expenseID"; "date"]; items := [] |}) ].

(** ** Observations on the whole surface *)

(** The payload a token carries. *)
Definition token_payload (t : Jwt.token) : dict :=
  match t with
  | Jwt.Signed _ _ payload => payload
  | Jwt.Malformed _ => []
  end.

(** The HTTP status of an outcome. *)
Definition status_of (out : result pyval) : Z := fst (http_response out).

(** Against every store, route [p] issues the one call [c], turns a
    rejection of it into HTTP 500, and answers with 200 or 500. *)
Definition one_call_route (p : prog pyval) (c : call) : Prop :=
  forall (S : Type) (exec : S -> call -> S * result dict) (st : S),
    calls_of exec st p = [c] /\
    rejection_is_500 exec st c p /\
    (status_of (outcome_of exec st p) = 200 \/
     status_of (outcome_of exec st p) = 500).

(** When the store answers call [c] with the item [item], get route [p]
    answers 500, unsupported data type. *)
Definition get_fails_on {S} (exec : S -> call -> S * result dict) (st : S)
    (p : prog pyval) (c : call) (item : dict) : Prop :=
  forall st' response,
    exec st c = (st', Ok response) ->
    dict_get "Item" response = Some (VDict item) ->
    http_response (outcome_of exec st p)
      = (500, VDict [("detail", VStr "Unsupported DynamoDB data type")]).

(** When the store answers call [c] without an item, get route [p] answers
    200 with the empty object. *)
Definition get_empty_on {S} (exec : S -> call -> S * result dict) (st : S)
    (p : prog pyval) (c : call) : Prop :=
  forall st' response,
    exec st c = (st', Ok response) ->
    dict_get "Item" response = None ->
    http_response (outcome_of exec st p) = (200, VDict []).

(** The typed form of every value of a mapping. *)
Definition typed_items (d : dict) : dict :=
  map (fun kv => (fst kv, typed_value (snd kv))) d.

(** When the store answers call [c] with the new values of the updated
    attributes, update route [p] answers 200 with the updates mapping. *)
Definition update_echoes {S} (exec : S -> call -> S * result dict) (st : S)
    (p : prog pyval) (c : call) (request : UpdateStaffRequest) : Prop :=
  forall st' response,
    exec st c = (st', Ok response) ->
    dict_get "Attributes" response
      = Some (VDict (typed_items (updates_dict request))) ->
    http_response (outcome_of exec st p)
      = (200, VDict (updates_dict request)).

(** The reference store after [item] was put in table [tn], which was [t]
    in [st], and after the items of key [key] were deleted from it. *)
Definition after_put (tn : string) (item : dict) (st : store) (t : table)
  : store :=
  set_table tn
    {| schema := schema t; items := (remove t item ++ [item])%list |} st.

Definition after_delete (tn : string) (key : dict) (st : store) (t : table)
  : store :=
  set_table tn {| schema := schema t; items := remove t key |} st.

(** The Staff item of [staff] once [hourlyRate] was set to the typed value
    [v]. *)
Definition staff_item_with_rate (staff : Staff) (v : pyval) : dict :=
  [ ("staffID", S_ (staffID staff));
    ("fullName", S_ (fullName staff));
    ("employmentType", S_ (employmentType staff));
    ("jobTitle", S_ (jobTitle staff));
    ("hourlyRate", v) ].

(** A deployment whose Shifts table is keyed by what [create_shift]
    writes. *)
Definition staff_keyed_shifts : store :=
  [ ("Staff", {| schema := ["staffID"]; items := [] |});
    ("Shifts", {| schema := ["staffID"; "startDate"]; items := [] |});
    ("Expenses", {| schema := ["expenseID"; "date"]; items := [] |}) ].

Definition night_shift : MainRest.Shift :=
  {| MainRest.shift_staffID := "S1"; MainRest.startDate := "2024-01-01";
     MainRest.endDate := "2024-01-02"; MainRest.house := "H1";
     MainRest.shift := "night"; MainRest.shiftStart := "22:00";
     MainRest.shiftEnd := "06:00"; MainRest.overtime := FDec false 0 0;
     MainRest.totalHours := FDec false 8 0;
     MainRest.totalWage := FDec false 124 0;
     MainRest.absence := "no"; MainRest.absenceStatus := "none" |}.

Definition fuel_bill : MainRest.Expense :=
  {| MainRest.expenseID := "E1"; MainRest.date := "2024-01-01";
     MainRest.youngPersonWeeklyMoney := FDec false 10 0;
     MainRest.maintenance := FDec false 255 (-1);
     MainRest.IT := FDec false 0 0; MainRest.misc := FDec false 0 0;
     MainRest.pettyCash := FDec false 5 0;
     MainRest.general := FDec false 1 0 |}.

(** ** Texts of floats *)

(** A text of decimal digits only, and a text that does not start with
    one. *)
Fixpoint all_digits (s : string) : bool :=
  match s with
  | EmptyString => true
  | String c r => is_digit c && all_digits r
  end.

Definition starts_nondigit (s : string) : bool :=
  match s with
  | EmptyString => true
  | String c _ => negb (is_digit c)
  end.

(** [float_of_str] in two steps: the sign, then the number. *)
Definition sign_of (s : string) : bool * string :=
  match s with
  | String "-" r => (true, r)
  | String "+" r => (false, r)
  | _ => (false, s)
  end.

Definition number_of (neg : bool) (s1 : string) : option pyfloat :=
  let w := lower s1 in
  if String.eqb w "inf" || String.eqb w "infinity" then Some (FInf neg)
  else if String.eqb w "nan" then Some FNan
  else
    let (ip, s2) := span_digits s1 in
    let (fp, s3) :=
      match s2 with
      | String "." r => span_digits r
      | _ => ("", s2)
      end in
    if String.eqb ip "" && String.eqb fp "" then None
    else
      let ex :=
        match s3 with
        | EmptyString => Some 0
        | String c r =>
            if Ascii.eqb (lower_ascii c) "e" then int_of_str r else None
        end in
      match ex, NilEmpty.uint_of_string (ip ++ fp) with
      | Some x, Some ds =>
          let (m, e) := float_norm (N.of_uint ds)
                          (x - Z.of_nat (String.length fp)) in
          Some (FDec neg m e)
      | _, _ => None
      end.

(** What may follow the fraction: nothing, or an exponent. *)
Definition exp_tail (tail : string) (x : Z) : Prop :=
  (tail = "" /\ x = 0) \/
  (exists t, tail = String "e" t /\ int_of_str t = Some x).

(** The digits of [m]. *)
Definition digits_of (m : N) : string :=
  NilZero.string_of_uint (N.to_uint m).

(** The trailing zeros of a list of digits, counted from its reverse. *)
Definition laux : list digits -> list digits * nat :=
  fix aux (l_rev : list digits) : list digits * nat :=
    match l_rev with
    | cons d0 l_rev => let (r, n) := aux l_rev in (r, S n)
    | _ => (l_rev, O)
    end.

(** The number of digits of [m], and the position of the decimal point of
    [m * 10^e] counted from the first digit. *)
Definition ndigits_of (m : N) : nat := String.length (digits_of m).

Definition decpt_of (m : N) (e : Z) : Z := Z.of_nat (ndigits_of m) + e.

(** [float_repr] without the sign, on a normal mantissa and exponent. *)
Definition repr_body (m : N) (e : Z) : string :=
  let digits := NilZero.string_of_uint (N.to_uint m) in
  let ndigits := String.length digits in
  let decpt := Z.of_nat ndigits + e in
  if (decpt <=? -4) || (16 <? decpt) then
    substring 0 1 digits ++
    (if Nat.ltb 1 ndigits
     then "." ++ substring 1 (ndigits - 1) digits else "") ++
    "e" ++ exp_str (decpt - 1)
  else if decpt <=? 0 then
    "0." ++ zeros (Z.to_nat (- decpt)) ++ digits
  else if Z.of_nat ndigits <=? decpt then
    digits ++ zeros (Z.to_nat decpt - ndigits) ++ ".0"
  else
    substring 0 (Z.to_nat decpt) digits ++ "." ++
    substring (Z.to_nat decpt) (ndigits - Z.to_nat decpt) digits.

(** A text of the form digits, point, digits, optional exponent, that
    reads as [m * 10^e]. *)
Definition reads_as (body : string) (m : N) (e : Z) : Prop :=
  exists (c : ascii) (ip' fp tail : string) (x : Z) (ds : uint),
    body = String c ip' ++ String "." (fp ++ tail) /\
    is_digit c = true /\ all_digits ip' = true /\ all_digits fp = true /\
    exp_tail tail x /\
    NilEmpty.uint_of_string (String c ip' ++ fp) = Some ds /\
    float_norm (N.of_uint ds) (x - Z.of_nat (String.length fp)) = (m, e).

(** The mantissa of a float has no trailing zero. *)
Definition float_normal (x : pyfloat) : Prop :=
  match x with
  | FDec _ m e => float_norm m e = (m, e)
  | _ => True
  end.

(** A process whose token lifetime is configured as zero minutes. *)
Definition g_zero : Auth.Globals :=
  {| Auth.utc_now := 1000;
     Auth.SECRET_KEY := "k3y";
     Auth.ACCESS_TOKEN_EXPIRE_MINUTES := 0 |}.

(** ** Payloads, routes and limits *)


(** Modelled from the spec: the router is FastAPI, outside the repository.
    [token: str = Depends(verify_token)] in the signature of a handler:
    the token service verifies the bearer token of the request before the
    body of the handler runs; what it raises is the answer of the route,
    and what it returns is the [token] argument of the body.  The request
    is one that carries a bearer token and whose parameters the router
    accepted (a request without the header is answered 401 and one with
    missing or ill-typed parameters 422, both by the router itself). *)
Definition depends_verify_token (g : Auth.Globals) (now : Z)
    (bearer : Jwt.token) (handler : pyval -> prog pyval) : prog pyval :=
  match Auth.verify_token g now bearer with
  | inl username => handler username
  | inr e => Raise e
  end.

(** A route behind its dependency: a token that is refused gives 401 and
    no store call; otherwise the body runs as a [one_call_route] does. *)
Definition guarded_route (handler : pyval -> prog pyval) (c : call) : Prop :=
  forall (g : Auth.Globals) (now : Z) (bearer : Jwt.token)
         (S : Type) (exec : S -> call -> S * result dict) (st : S),
    (forall e, Auth.verify_token g now bearer = Err e ->
       calls_of exec st (depends_verify_token g now bearer handler) = [] /\
       http_response
         (outcome_of exec st (depends_verify_token g now bearer handler))
         = (401, VDict [("detail", VStr "Could not validate credentials")])) /\
    (forall username, Auth.verify_token g now bearer = Ok username ->
       calls_of exec st (depends_verify_token g now bearer handler) = [c] /\
       rejection_is_500 exec st c
         (depends_verify_token g now bearer handler) /\
       (status_of
          (outcome_of exec st (depends_verify_token g now bearer handler))
          = 200 \/
        status_of
          (outcome_of exec st (depends_verify_token g now bearer handler))
          = 500)).

(** The item that an update through the Shift route leaves under the key
    the route sends, and a deployment that holds it. *)
Definition placeholder_shift : dict :=
  [ ("shiftID", S_ "shift_id"); ("startDate", S_ "2024-01-01");
    ("house", S_ "H1") ].

Definition shifts_with_placeholder : table :=
  {| schema := ["shiftID"; "startDate"]; items := [placeholder_shift] |}.

Definition store_with_placeholder : store :=
  [ ("Staff", {| schema := ["staffID"]; items := [] |});
    ("Shifts", shifts_with_placeholder);
    ("Expenses", {| schema := ["expenseID"; "date"]; items := [] |}) ].

(** [sys.int_info.default_max_str_digits]: CPython converts between int
    and str up to this many digits and raises [ValueError] beyond. *)
Definition default_max_str_digits : Z := 4300.

Definition within_max_str_digits (z : Z) : Prop :=
  Z.abs z < 10 ^ default_max_str_digits.

(* ================================================================== *)
(** * Properties *)
(* ================================================================== *)

(** ** Python builtins on sample values *)

Example float_repr_15_5 : float_repr (FDec false 155 (-1)) = "15.5".
Proof. reflexivity. Qed.

Example float_repr_16 : float_repr (FDec false 160 (-1)) = "16.0".
Proof. reflexivity. Qed.

Example float_repr_1e16 : float_repr (FDec false 1 16) = "1e+16".
Proof. reflexivity. Qed.

Example float_repr_1e15 :
  float_repr (FDec false 1 15) = "1000000000000000.0".
Proof. reflexivity. Qed.

Example float_repr_1e_5 : float_repr (FDec false 1 (-5)) = "1e-05".
Proof. reflexivity. Qed.

Example float_repr_1e_4 : float_repr (FDec false 1 (-4)) = "0.0001".
Proof. reflexivity. Qed.

Example float_repr_big : float_repr (FDec true 12345 96) = "-1.2345e+100".
Proof. reflexivity. Qed.

Example float_repr_zero : float_repr (FDec false 0 0) = "0.0".
Proof. reflexivity. Qed.

Example float_of_str_15_5 :
  float_of_str "15.5" = Some (FDec false 155 (-1)).
Proof. reflexivity. Qed.

Example float_of_str_16_0 : float_of_str "16.0" = Some (FDec false 16 0).
Proof. reflexivity. Qed.

Example float_of_str_exp :
  float_of_str "-1.2345e+100" = Some (FDec true 12345 96).
Proof. reflexivity. Qed.

Example float_of_str_bad : float_of_str "1.5x" = None.
Proof. reflexivity. Qed.

Example int_of_str_exp : int_of_str "1e+16" = None.
Proof. reflexivity. Qed.

Example int_of_str_neg : int_of_str "-42" = Some (-42).
Proof. reflexivity. Qed.

Example split_clauses : split ", " "a = :a, b = :b" = ["a = :a"; "b = :b"].
Proof. reflexivity. Qed.

(** ** Token service *)

Section TokenService.

Variable env : Env.
Variable g : Auth.Globals.

(** The token of a login that succeeds. *)
Lemma login_ok_inv (form : OAuth2PasswordRequestForm) (tok : Token) :
  login env g form = Ok tok ->
  API_USERNAME env = Some (username form) /\
  API_PASSWORD env = Some (password form) /\
  tok = {| access_token :=
             Auth.create_access_token g [("sub", VStr (username form))]
               (Some (ttl_seconds g));
           token_type := "bearer" |}.
Proof.
  unfold login, str_ne.
  destruct (API_USERNAME env) as [u|]; [|discriminate].
  destruct (API_PASSWORD env) as [p|];
    [|rewrite orb_true_r; discriminate].
  destruct (String.eqb_spec (username form) u) as [Eu|]; [|discriminate].
  destruct (String.eqb_spec (password form) p) as [Ep|]; [|discriminate].
  cbn. intros [= <-]. now rewrite Eu, Ep.
Qed.

(** The configured pair logs in. *)
Lemma login_configured (form : OAuth2PasswordRequestForm) :
  API_USERNAME env = Some (username form) ->
  API_PASSWORD env = Some (password form) ->
  exists tok, login env g form = Ok tok.
Proof.
  intros Hu Hp. unfold login, str_ne. rewrite Hu, Hp, !String.eqb_refl.
  cbn. eauto.
Qed.


(** The expiry written by [create_access_token]. *)
Lemma create_access_token_exp (data : dict) (d : option Z) :
  token_exp (Auth.create_access_token g data d) =
  Some (VInt (Auth.utc_now g +
              if Auth.timedelta_truthy d
              then match d with Some x => x | None => 0 end
              else 900)).
Proof.
  unfold Auth.create_access_token, Jwt.encode, token_exp, dict_update.
  cbn [fold_left fst snd].
  assert (Hset : forall k v dd, dict_get k (dict_set k v dd) = Some v).
  { intros k v dd. induction dd as [|[k' v'] r IH]; cbn.
    - now rewrite String.eqb_refl.
    - destruct (String.eqb_spec k k') as [->|Hk]; cbn.
      + now rewrite String.eqb_refl.
      + destruct (String.eqb_spec k k'); [contradiction|assumption]. }
  rewrite Hset. now destruct (Auth.timedelta_truthy d).
Qed.

(** With no [expires_delta], and also with a zero one, the expiry is 15
    minutes after [utc_now]. *)
Lemma create_access_token_default (data : dict) :
  token_exp (Auth.create_access_token g data None)
    = Some (VInt (Auth.utc_now g + 900)) /\
  token_exp (Auth.create_access_token g data (Some 0))
    = Some (VInt (Auth.utc_now g + 900)).
Proof. split; now rewrite create_access_token_exp. Qed.

(** What [jwt.decode] sees in a token made by [login]. *)
Lemma login_token_shape (form : OAuth2PasswordRequestForm) (tok : Token) :
  login env g form = Ok tok ->
  Auth.ACCESS_TOKEN_EXPIRE_MINUTES g <> 0 ->
  access_token tok =
    Jwt.Signed Auth.ALGORITHM (Auth.SECRET_KEY g)
      [("sub", VStr (username form));
       ("exp", VInt (Auth.utc_now g + (ttl_seconds g)))].
Proof.
  intros Hlogin Httl.
  destruct (login_ok_inv form tok Hlogin) as (_ & _ & ->).
  assert (E : (ttl_seconds g =? 0) = false).
  { apply Z.eqb_neq. unfold ttl_seconds, Auth.timedelta_minutes. lia. }
  cbn [access_token].
  unfold Auth.create_access_token, Auth.timedelta_truthy.
  rewrite E. reflexivity.
Qed.

(** [verify_token] on a token signed by the process, with a subject and
    an expiry. *)
Lemma verify_signed (u : string) (e now : Z) :
  Auth.verify_token g now
    (Jwt.Signed Auth.ALGORITHM (Auth.SECRET_KEY g)
       [("sub", VStr u); ("exp", VInt e)])
  = if e <=? now then Err Auth.credentials_exception else Ok (VStr u).
Proof.
  unfold Auth.verify_token, Jwt.decode.
  cbn [existsb Auth.ALGORITHM negb orb]. rewrite String.eqb_refl.
  cbn [negb orb]. rewrite String.eqb_refl. cbn [negb].
  change (dict_get "exp" [("sub", VStr u); ("exp", VInt e)])
    with (Some (VInt e)).
  cbv beta iota. now destruct (e <=? now).
Qed.


(** C4 (the code departs from the claim).  The expiry of the token that
    [login] issues is [utc_now], the clock reading taken once when
    [app/auth.py] was imported, plus the configured minutes; at every later
    moment [now] of issuance it differs from [now] plus the configured
    minutes. *)
Theorem login_expiry_counts_from_import
    (form : OAuth2PasswordRequestForm) (tok : Token) (now : Z) :
  login env g form = Ok tok ->
  Auth.ACCESS_TOKEN_EXPIRE_MINUTES g <> 0 ->
  Auth.utc_now g < now ->
  token_exp (access_token tok)
    = Some (VInt (Auth.utc_now g + 60 * Auth.ACCESS_TOKEN_EXPIRE_MINUTES g))
  /\ token_exp (access_token tok)
    <> Some (VInt (now + 60 * Auth.ACCESS_TOKEN_EXPIRE_MINUTES g)).
Proof.
  intros Hlogin Httl Hnow.
  rewrite (login_token_shape form tok Hlogin Httl).
  change (token_exp _)
    with (Some (VInt (Auth.utc_now g + (ttl_seconds g)))).
  unfold ttl_seconds, Auth.timedelta_minutes.
  split; [reflexivity|]. intros [= H]. lia.
Qed.

(** C5 (the code departs from the claim).  A login with the configured
    pair that is served once the configured minutes have passed since
    [app/auth.py] was imported succeeds, and the token it issues is
    refused by [verify_token] at that very moment. *)
Theorem late_login_token_is_refused
    (form : OAuth2PasswordRequestForm) (now : Z) :
  API_USERNAME env = Some (username form) ->
  API_PASSWORD env = Some (password form) ->
  0 < Auth.ACCESS_TOKEN_EXPIRE_MINUTES g ->
  Auth.utc_now g + 60 * Auth.ACCESS_TOKEN_EXPIRE_MINUTES g <= now ->
  exists tok,
    login env g form = Ok tok /\
    Auth.verify_token g now (access_token tok)
      = Err (HTTPException 401 "Could not validate credentials"
               [("WWW-Authenticate", "Bearer")]).
Proof.
  intros Hu Hp Httl Hnow.
  destruct (login_configured form Hu Hp) as [tok Hlogin].
  exists tok. split; [exact Hlogin|].
  rewrite (login_token_shape form tok Hlogin), verify_signed by lia.
  unfold ttl_seconds, Auth.timedelta_minutes.
  destruct (Z.leb_spec
              (Auth.utc_now g + 60 * Auth.ACCESS_TOKEN_EXPIRE_MINUTES g) now);
    [reflexivity|lia].
Qed.

(** C8.  A token whose [exp] claim is earlier than the clock reading is
    refused by [verify_token] with 401, whatever key signed it: the key of
    the process included. *)
Theorem expired_token_is_unauthorized
    (now : Z) (alg key : string) (payload : dict) (exp : Z) :
  dict_get "exp" payload = Some (VInt exp) ->
  exp < now ->
  Auth.verify_token g now (Jwt.Signed alg key payload)
    = Err (HTTPException 401 "Could not validate credentials"
             [("WWW-Authenticate", "Bearer")]).
Proof.
  intros Hexp Hlt. unfold Auth.verify_token, Jwt.decode.
  destruct (negb (existsb (String.eqb alg) [Auth.ALGORITHM]));
    [reflexivity|].
  destruct (negb (String.eqb key (Auth.SECRET_KEY g))); [reflexivity|].
  rewrite Hexp.
  destruct (Z.leb_spec exp now); [reflexivity|lia].
Qed.

End TokenService.

Lemma login_expiry_counts_from_import_witness :
  login env0 g0 form0 = Ok tok0 /\
  token_exp (access_token tok0) = Some (VInt 1900) /\
  token_exp (access_token tok0) <> Some (VInt (5000 + 60 * 15)).
Proof.
  split; [reflexivity|].
  apply (login_expiry_counts_from_import env0 g0 form0 tok0 5000).
  - reflexivity.
  - cbn. lia.
  - cbn. lia.
Defined.

Lemma late_login_token_is_refused_witness :
  exists tok,
    login env0 g0 form0 = Ok tok /\
    Auth.verify_token g0 5000 (access_token tok)
      = Err (HTTPException 401 "Could not validate credentials"
               [("WWW-Authenticate", "Bearer")]).
Proof.
  apply (late_login_token_is_refused env0 g0 form0 5000).
  - reflexivity.
  - reflexivity.
  - cbn. lia.
  - cbn. lia.
Defined.

Lemma expired_token_is_unauthorized_witness :
  Auth.verify_token g0 2000
    (Jwt.Signed Auth.ALGORITHM (Auth.SECRET_KEY g0)
       [("sub", VStr "admin"); ("exp", VInt 1900)])
    = Err (HTTPException 401 "Could not validate credentials"
             [("WWW-Authenticate", "Bearer")]).
Proof.
  apply (expired_token_is_unauthorized g0 2000 Auth.ALGORITHM
           (Auth.SECRET_KEY g0) _ 1900).
  - reflexivity.
  - lia.
Defined.

(** ** Dictionaries *)

Section Dicts.

Lemma dict_mem_keys (k : string) (d : dict) :
  dict_mem k d = true <-> In k (dict_keys d).
Proof.
  induction d as [|[k' v] r IH]; cbn.
  - split; [discriminate|contradiction].
  - rewrite orb_true_iff, IH, String.eqb_eq. intuition congruence.
Qed.

Lemma dict_set_fresh (k : string) (v : pyval) (d : dict) :
  ~ In k (dict_keys d) -> dict_set k v d = (d ++ [(k, v)])%list.
Proof.
  induction d as [|[k' v'] r IH]; cbn; intros Hk; [reflexivity|].
  destruct (String.eqb_spec k k') as [->|_].
  - exfalso. apply Hk. now left.
  - rewrite IH; [reflexivity|]. intros Hin. apply Hk. now right.
Qed.

(** Items with distinct keys, none of them already present, are appended
    in their order. *)
Lemma dict_update_fresh (items acc : dict) :
  NoDup (dict_keys (acc ++ items)%list) ->
  dict_update acc items = (acc ++ items)%list.
Proof.
  revert acc. induction items as [|[k v] r IH]; intros acc Hnd.
  - cbn. now rewrite List.app_nil_r.
  - unfold dict_update in *. cbn [fold_left fst snd].
    assert (Hk : ~ In k (dict_keys acc)).
    { unfold dict_keys in *. rewrite map_app in Hnd. cbn in Hnd.
      apply NoDup_remove_2 in Hnd. intros Hin. apply Hnd.
      apply in_or_app. now left. }
    rewrite (dict_set_fresh k v acc Hk), IH, <- List.app_assoc; [reflexivity|].
    now rewrite <- List.app_assoc.
Qed.

Lemma dict_set_keys (k : string) (v : pyval) (d : dict) :
  dict_keys (dict_set k v d) =
  if dict_mem k d then dict_keys d else (dict_keys d ++ [k])%list.
Proof.
  unfold dict_keys.
  induction d as [|[k' v'] r IH]; cbn; [reflexivity|].
  destruct (String.eqb_spec k k') as [->|_]; cbn; [reflexivity|].
  rewrite IH. now destruct (dict_mem k r).
Qed.

Lemma dict_set_nodup (k : string) (v : pyval) (d : dict) :
  NoDup (dict_keys d) -> NoDup (dict_keys (dict_set k v d)).
Proof.
  intros Hnd. rewrite dict_set_keys.
  destruct (dict_mem k d) eqn:Hm; [assumption|].
  assert (Hk : ~ In k (dict_keys d)).
  { rewrite <- dict_mem_keys, Hm. discriminate. }
  clear Hm. induction (dict_keys d) as [|a l IH]; cbn.
  - constructor; [intros []|constructor].
  - inversion Hnd as [|? ? Ha Hl]; subst. constructor.
    + rewrite in_app_iff. cbn. intros [H|[H|[]]]; [now apply Ha|].
      subst. apply Hk. now left.
    + apply IH; [assumption|]. intros Hin. apply Hk. now right.
Qed.

(** A dict built by assignments has no key twice. *)
Lemma dict_update_nodup (items acc : dict) :
  NoDup (dict_keys acc) -> NoDup (dict_keys (dict_update acc items)).
Proof.
  revert acc. unfold dict_update.
  induction items as [|[k v] r IH]; intros acc Hnd; cbn; [assumption|].
  apply IH. now apply dict_set_nodup.
Qed.

Lemma dict_set_values (P : pyval -> Prop) (k : string) (v : pyval)
    (d : dict) :
  Forall (fun kv => P (snd kv)) d -> P v ->
  Forall (fun kv => P (snd kv)) (dict_set k v d).
Proof.
  intros Hd Hv. induction Hd as [|[k' v'] r Hx Hr IH]; cbn.
  - now constructor.
  - destruct (String.eqb k k'); constructor; auto.
Qed.

(** The values of a dict built by assignments are the assigned ones. *)
Lemma dict_update_values (P : pyval -> Prop) (items acc : dict) :
  Forall (fun kv => P (snd kv)) acc ->
  Forall (fun kv => P (snd kv)) items ->
  Forall (fun kv => P (snd kv)) (dict_update acc items).
Proof.
  revert acc. unfold dict_update.
  induction items as [|[k v] r IH]; intros acc Ha Hi; cbn; [assumption|].
  inversion Hi as [|? ? Hv Hr]; subst.
  apply IH; [|assumption]. now apply dict_set_values.
Qed.

Lemma dict_get_in (k : string) (v : pyval) (d : dict) :
  NoDup (dict_keys d) -> In (k, v) d -> dict_get k d = Some v.
Proof.
  induction d as [|[k' v'] r IH]; cbn; intros Hnd Hin; [contradiction|].
  inversion Hnd as [|? ? Hk Hr]; subst.
  destruct Hin as [[= -> ->]|Hin].
  - now rewrite String.eqb_refl.
  - destruct (String.eqb_spec k k') as [->|_]; [|now apply IH].
    exfalso. apply Hk. change (In (fst (k', v)) (map fst r)).
    now apply in_map.
Qed.

End Dicts.

(** ** Partial updates *)

Section PartialUpdate.

Variable request : UpdateStaffRequest.

(** Under the request model every value of [updates] is a str. *)
Lemma updates_are_str :
  Forall (fun kv => is_str (snd kv) = true) (updates_dict request).
Proof.
  unfold updates_dict, dict_of_items.
  apply (dict_update_values (fun v => is_str v = true)); [constructor|].
  induction (updates request) as [|[k s] r IH]; cbn; now constructor.
Qed.

Lemma updates_nodup : NoDup (dict_keys (updates_dict request)).
Proof. apply dict_update_nodup. constructor. Qed.

(** The value table is the updates dict, entry by entry: the key gets a
    colon in front and the value its typed form. *)
Lemma expression_attribute_values_map :
  expression_attribute_values_of (updates_dict request)
  = map (fun kv => (":" ++ fst kv, typed_value (snd kv)))
      (updates_dict request).
Proof.
  unfold expression_attribute_values_of, dict_of_items.
  rewrite dict_update_fresh; [reflexivity|].
  rewrite List.app_nil_l. unfold dict_keys. rewrite map_map. cbn [fst].
  rewrite <- (map_map fst (fun k => ":" ++ k)).
  apply Injective_map_NoDup; [|apply updates_nodup].
  intros a b [= H]. exact H.
Qed.

(** Every value sent is string-tagged. *)
Lemma expression_attribute_values_tagged :
  Forall (fun kv => exists s, snd kv = S_ s)
    (expression_attribute_values_of (updates_dict request)).
Proof.
  rewrite expression_attribute_values_map.
  apply Forall_map. cbn [snd].
  eapply Forall_impl; [|apply updates_are_str].
  intros [k v]. cbn. destruct v; try discriminate. intros _. now exists s.
Qed.

End PartialUpdate.

(** ** Handlers against an arbitrary store *)

Section AnyStore.

Context {S : Type}.
Variable exec : S -> call -> S * result dict.
Variable st : S.

(** A handler that awaits one call inside its [try]. *)
Lemma run_try_await {A} (c : call) (k : dict -> prog A) (h : exn -> exn) :
  run exec st (try_except (bind (await c) k) h) =
  match exec st c with
  | (st1, inl d) =>
      let '(st2, cs, out) := run exec st1 (try_except (k d) h) in
      (st2, c :: cs, out)
  | (st1, inr e) => (st1, [c], Err (h e))
  end.
Proof.
  cbn. destruct (exec st c) as [st1 [d|e]]; reflexivity.
Qed.

Lemma run_try_lift {A} (s : S) (r : result A) (h : exn -> exn) :
  run exec s (try_except (lift r) h) =
  (s, [], match r with inl a => Ok a | inr e => Err (h e) end).
Proof. destruct r; reflexivity. Qed.

Lemma run_decode_item (s : S) (response : dict) :
  run exec s (try_except (decode_item response) internal_error) =
  (s, [],
   if truthy (response_get "Item" response)
   then match deserialize_dynamodb_item (response_get "Item" response) with
        | inl v => Ok v
        | inr e => Err (internal_error e)
        end
   else Ok (VDict [])).
Proof.
  unfold decode_item.
  destruct (truthy (response_get "Item" response)); [|reflexivity].
  apply run_try_lift.
Qed.

Lemma run_update (c : call) :
  run exec st
    (try_except
       (bind (await c)
          (fun response =>
             lift (deserialize_attributes
                     (response_get "Attributes" response))))
       internal_error)
  = (fst (exec st c), [c], update_outcome (snd (exec st c))).
Proof.
  rewrite run_try_await. destruct (exec st c) as [st1 [d|e]]; cbn [fst snd].
  - rewrite run_try_lift. reflexivity.
  - reflexivity.
Qed.

Lemma run_get (c : call) :
  run exec st
    (try_except (bind (await c) decode_item) internal_error)
  = (fst (exec st c), [c], get_outcome (snd (exec st c))).
Proof.
  rewrite run_try_await. destruct (exec st c) as [st1 [d|e]]; cbn [fst snd].
  - rewrite run_decode_item. reflexivity.
  - reflexivity.
Qed.

Lemma run_update_staff staff_id request token :
  run exec st (update_staff staff_id request token) =
  let c := update_call "Staff" (staff_key staff_id) request in
  (fst (exec st c), [c], update_outcome (snd (exec st c))).
Proof. apply run_update. Qed.

Lemma run_update_shift staff_id start_date request token :
  run exec st (update_shift staff_id start_date request token) =
  let c := update_call "Shifts" (shift_key "shift_id" start_date) request in
  (fst (exec st c), [c], update_outcome (snd (exec st c))).
Proof. apply run_update. Qed.

Lemma run_update_expense expense_id date request token :
  run exec st (update_expense expense_id date request token) =
  let c := update_call "Expenses" (expense_key expense_id date) request in
  (fst (exec st c), [c], update_outcome (snd (exec st c))).
Proof. apply run_update. Qed.

Lemma run_get_staff staff_id token :
  run exec st (get_staff staff_id token) =
  let c := get_item "Staff" (staff_key staff_id) in
  (fst (exec st c), [c], get_outcome (snd (exec st c))).
Proof. apply run_get. Qed.

Lemma run_get_shift staff_id start_date token :
  run exec st (get_shift staff_id start_date token) =
  let c := get_item "Shifts" (shift_key "shift_id" start_date) in
  (fst (exec st c), [c], get_outcome (snd (exec st c))).
Proof. apply run_get. Qed.

Lemma run_get_expense expense_id date token :
  run exec st (get_expense expense_id date token) =
  let c := get_item "Expenses" (expense_key expense_id date) in
  (fst (exec st c), [c], get_outcome (snd (exec st c))).
Proof. apply run_get. Qed.

Lemma run_delete (c : call) (text : string) :
  run exec st
    (try_except (bind (await c) (fun _ => Ret (message text)))
       internal_error)
  = (fst (exec st c), [c],
     match snd (exec st c) with
     | inl _ => Ok (message text)
     | inr e => Err (internal_error e)
     end).
Proof.
  rewrite run_try_await. now destruct (exec st c) as [st1 [d|e]].
Qed.

End AnyStore.

(** ** Keys of the Shift and Expense routes *)

(** The Expense routes build the key from both path parameters. *)
Lemma expense_routes_use_full_key {S} (exec : S -> call -> S * result dict)
    (st : S) (expense_id date : string) (request : UpdateStaffRequest)
    (token : pyval) :
  calls_of exec st (get_expense expense_id date token)
    = [get_item "Expenses" (expense_key expense_id date)] /\
  calls_of exec st (update_expense expense_id date request token)
    = [update_call "Expenses" (expense_key expense_id date) request] /\
  calls_of exec st (delete_expense expense_id date token)
    = [delete_item "Expenses" (expense_key expense_id date)].
Proof.
  unfold calls_of. rewrite run_get_expense, run_update_expense.
  unfold delete_expense. rewrite run_delete. auto.
Qed.

(** C2 (the code departs from the claim).  Whatever identifier the caller
    supplies, the get, update and delete routes of Shift send the key whose
    [shiftID] is the fixed text [shift_id]; for the identifier [SH1] this is
    not the full composite key. *)
Theorem shift_routes_send_placeholder_key {S}
    (exec : S -> call -> S * result dict) (st : S)
    (staff_id start_date : string) (request : UpdateStaffRequest)
    (token : pyval) :
  calls_of exec st (get_shift staff_id start_date token)
    = [get_item "Shifts" (shift_key "shift_id" start_date)] /\
  calls_of exec st (update_shift staff_id start_date request token)
    = [update_call "Shifts" (shift_key "shift_id" start_date) request] /\
  calls_of exec st (delete_shift staff_id start_date token)
    = [delete_item "Shifts" (shift_key "shift_id" start_date)] /\
  shift_key "shift_id" start_date <> shift_key "SH1" start_date.
Proof.
  unfold calls_of. rewrite run_get_shift, run_update_shift.
  unfold delete_shift. rewrite run_delete.
  repeat split. discriminate.
Qed.

(** ** The Partial-Update Encoder *)

(** C3 as stated fails: the numeric text [16] is sent string-tagged. *)
Lemma numeric_text_is_sent_as_string :
  let request := {| updates := [("hourlyRate", "16")] |} in
  expression_attribute_values_of (updates_dict request)
    = [(":hourlyRate", S_ "16")] /\
  classify_by_content "16" = N_ "16" /\
  dict_get ":hourlyRate"
    (expression_attribute_values_of (updates_dict request))
    <> Some (classify_by_content "16").
Proof.
  cbv zeta. split; [reflexivity|]. split; [reflexivity|]. discriminate.
Qed.

(** C3, amended.  The encoder looks at the type of a value, not at its
    content: every value of the updates mapping is a str and is sent as
    [{S: value}] under the placeholder of its field, whatever its text;
    [{N: str(value)}] is what a value that is not a str would get. *)
Theorem encoder_classifies_by_type
    (request : UpdateStaffRequest) (field : string) (value : pyval) :
  In (field, value) (updates_dict request) ->
  is_str value = true /\
  dict_get (":" ++ field)
    (expression_attribute_values_of (updates_dict request))
    = Some (VDict [("S", value)]) /\
  (forall v, is_str v = false -> typed_value v = N_ (py_str v)).
Proof.
  intros Hin.
  assert (Hstr : is_str value = true).
  { pose proof (updates_are_str request) as H.
    rewrite Forall_forall in H. exact (H _ Hin). }
  split; [exact Hstr|]. split.
  - apply dict_get_in.
    + rewrite expression_attribute_values_map.
      unfold dict_keys. rewrite map_map. cbn [fst].
      rewrite <- (map_map fst (fun k => ":" ++ k)).
      apply Injective_map_NoDup; [|apply updates_nodup].
      intros a b [= H]. exact H.
    + rewrite expression_attribute_values_map.
      replace (VDict [("S", value)]) with (typed_value value)
        by (unfold typed_value; now rewrite Hstr).
      apply (in_map (fun kv => (":" ++ fst kv, typed_value (snd kv)))
               _ (field, value) Hin).
  - intros v Hv. unfold typed_value. now rewrite Hv.
Qed.

Lemma encoder_classifies_by_type_witness :
  let request := {| updates := [("hourlyRate", "16.0"); ("jobTitle", "Nurse")] |} in
  is_str (VStr "16.0") = true /\
  dict_get ":hourlyRate"
    (expression_attribute_values_of (updates_dict request))
    = Some (VDict [("S", VStr "16.0")]) /\
  (forall v, is_str v = false -> typed_value v = N_ (py_str v)).
Proof.
  cbv zeta.
  apply (encoder_classifies_by_type
           {| updates := [("hourlyRate", "16.0"); ("jobTitle", "Nurse")] |}
           "hourlyRate" (VStr "16.0")).
  cbn. left. reflexivity.
Defined.

(** C10.  On the three update routes every value of the table sent to the
    store is string-tagged, because every value of the updates mapping is a
    str: the numeric branch of the encoder is never taken. *)
Theorem update_routes_send_only_strings {S}
    (exec : S -> call -> S * result dict) (st : S)
    (id date : string) (request : UpdateStaffRequest) (token : pyval) :
  let tagged (c : call) :=
    Forall (fun kv => exists s, snd kv = S_ s) (sent_values c) in
  Forall (fun kv => is_str (snd kv) = true) (updates_dict request) /\
  Forall tagged (calls_of exec st (update_staff id request token)) /\
  Forall tagged (calls_of exec st (update_shift id date request token)) /\
  Forall tagged (calls_of exec st (update_expense id date request token)).
Proof.
  cbv zeta. unfold calls_of.
  rewrite run_update_staff, run_update_shift, run_update_expense.
  cbn [fst snd].
  split; [apply updates_are_str|].
  repeat split; constructor; try constructor;
    apply expression_attribute_values_tagged.
Qed.

(** ** Empty updates *)

(** C6 as stated fails: with an empty updates mapping the handler calls the
    store, and the instruction of the call is ["SET "]. *)
Lemma empty_updates_are_sent :
  calls_of exec deployed
    (update_staff "S1" {| updates := [] |} (VStr "admin"))
  = [update_item "Staff" [("staffID", S_ "S1")] "SET " [] "UPDATED_NEW"] /\
  calls_of exec deployed
    (update_staff "S1" {| updates := [] |} (VStr "admin")) <> [].
Proof. split; [reflexivity|discriminate]. Qed.

(** C6, amended.  With an empty updates mapping an update handler raises
    nothing of its own: it issues one update call whose instruction is
    ["SET "] and whose value table is empty, and when the store rejects
    the call the rejection comes back as HTTP 500 with the text of the
    store. *)
Theorem empty_updates_reach_the_store {S}
    (exec : S -> call -> S * result dict) (st : S)
    (id date : string) (token : pyval) :
  let empty := {| updates := [] |} in
  let staff_call :=
    update_item "Staff" (staff_key id) "SET " [] "UPDATED_NEW" in
  let shift_call :=
    update_item "Shifts" (shift_key "shift_id" date) "SET " []
      "UPDATED_NEW" in
  let expense_call :=
    update_item "Expenses" (expense_key id date) "SET " [] "UPDATED_NEW" in
  (calls_of exec st (update_staff id empty token) = [staff_call] /\
   calls_of exec st (update_shift id date empty token) = [shift_call] /\
   calls_of exec st (update_expense id date empty token) = [expense_call])
  /\
  (rejection_is_500 exec st staff_call (update_staff id empty token) /\
   rejection_is_500 exec st shift_call (update_shift id date empty token) /\
   rejection_is_500 exec st expense_call
     (update_expense id date empty token)).
Proof.
  cbv zeta. unfold rejection_is_500. unfold calls_of, outcome_of.
  rewrite run_update_staff, run_update_shift, run_update_expense.
  cbn [fst snd]. split; [repeat split|].
  repeat split; intros st' e He.
  - change (update_call "Staff" (staff_key id) {| updates := [] |})
      with (update_item "Staff" (staff_key id) "SET " [] "UPDATED_NEW").
    now rewrite He.
  - change (update_call "Shifts" (shift_key "shift_id" date)
              {| updates := [] |})
      with (update_item "Shifts" (shift_key "shift_id" date) "SET " []
              "UPDATED_NEW").
    now rewrite He.
  - change (update_call "Expenses" (expense_key id date)
              {| updates := [] |})
      with (update_item "Expenses" (expense_key id date) "SET " []
              "UPDATED_NEW").
    now rewrite He.
Qed.

Lemma empty_updates_reach_the_store_witness :
  calls_of exec deployed
    (update_staff "S1" {| updates := [] |} (VStr "admin"))
    = [update_item "Staff" (staff_key "S1") "SET " [] "UPDATED_NEW"] /\
  http_response
    (outcome_of exec deployed
       (update_staff "S1" {| updates := [] |} (VStr "admin")))
    = (500,
       VDict [("detail",
               VStr "ValidationException: Invalid UpdateExpression: Syntax error")]).
Proof.
  destruct (empty_updates_reach_the_store exec deployed "S1" "2024-01-01"
              (VStr "admin")) as [[Hcalls _] [Hout _]].
  split; [exact Hcalls|].
  apply (Hout deployed
           (validation "Invalid UpdateExpression: Syntax error")).
  reflexivity.
Defined.

(** ** The reference store *)

Section ReferenceStore.

Lemma pyfloat_eqb_eq (x y : pyfloat) : pyfloat_eqb x y = true -> x = y.
Proof.
  destruct x as [|a|a m e], y as [|b|b m' e']; cbn; try discriminate.
  - reflexivity.
  - intros H. apply Bool.eqb_prop in H. now subst.
  - rewrite !andb_true_iff. intros [[Hs Hm] He].
    apply Bool.eqb_prop in Hs. apply N.eqb_eq in Hm. apply Z.eqb_eq in He.
    now subst.
Qed.

Lemma pyval_eqb_eq : forall a b : pyval, pyval_eqb a b = true -> a = b.
Proof.
  fix IH 1.
  intros [|s|z|x|d] [|s'|z'|x'|d']; cbn; try discriminate.
  - reflexivity.
  - intros H. apply String.eqb_eq in H. now subst.
  - intros H. apply Z.eqb_eq in H. now subst.
  - intros H. apply pyfloat_eqb_eq in H. now subst.
  - intros H. f_equal. revert d' H.
    induction d as [|[k v] r IHr]; intros [|[k' v'] r'];
      try discriminate; [reflexivity|].
    rewrite !andb_true_iff. intros [[Hk Hv] Hr].
    apply String.eqb_eq in Hk. apply IH in Hv. apply IHr in Hr.
    now subst.
Qed.

Lemma pyval_eqb_refl : forall a : pyval, pyval_eqb a a = true.
Proof.
  fix IH 1.
  intros [|s|z|x|d]; cbn.
  - reflexivity.
  - apply String.eqb_refl.
  - apply Z.eqb_refl.
  - destruct x as [|a|a m e]; cbn.
    + reflexivity.
    + now destruct a.
    + rewrite N.eqb_refl, Z.eqb_refl. now destruct a.
  - induction d as [|[k v] r IHr]; [reflexivity|].
    now rewrite String.eqb_refl, IH, IHr.
Qed.

Lemma find_set_table (name : string) (t : table) (st : store) :
  find_table name (set_table name t st) = Some t.
Proof.
  induction st as [|[n t'] r IH]; cbn.
  - now rewrite String.eqb_refl.
  - destruct (String.eqb_spec name n) as [->|Hn]; cbn.
    + now rewrite String.eqb_refl.
    + destruct (String.eqb_spec name n); [contradiction|exact IH].
Qed.

Lemma find_all_false {A} (f : A -> bool) (l : list A) :
  (forall x, In x l -> f x = false) -> find f l = None.
Proof.
  induction l as [|a l IH]; cbn; intros H; [reflexivity|].
  rewrite (H a) by now left. apply IH. intros x Hx. apply H. now right.
Qed.

Lemma find_after_misses {A} (f : A -> bool) (l : list A) (x : A) :
  (forall y, In y l -> f y = false) -> f x = true ->
  find f (l ++ [x])%list = Some x.
Proof.
  induction l as [|a l IH]; cbn; intros H Hx.
  - now rewrite Hx.
  - rewrite (H a) by now left. apply IH; [|exact Hx].
    intros y Hy. apply H. now right.
Qed.

(** A Staff key matches exactly the items with that [staffID]. *)
Lemma has_staff_key (staff_id : string) (it : dict) :
  has_key ["staffID"] (staff_key staff_id) it = true <->
  dict_get "staffID" it = Some (S_ staff_id).
Proof.
  unfold has_key, staff_key. cbn [forallb dict_get].
  rewrite String.eqb_refl, andb_true_r.
  destruct (dict_get "staffID" it) as [y|].
  - split.
    + intros H. apply pyval_eqb_eq in H. now subst.
    + intros [= ->]. apply pyval_eqb_refl.
  - split; discriminate.
Qed.

(** The answer of the store to a get on a key no item has. *)
Lemma exec_get_absent (st : store) (t : table) (staff_id : string) :
  find_table "Staff" st = Some t ->
  schema t = ["staffID"] ->
  (forall it, In it (items t) ->
              dict_get "staffID" it <> Some (S_ staff_id)) ->
  exec st (get_item "Staff" (staff_key staff_id)) = (st, Ok []).
Proof.
  intros Ht Hs Habs. unfold exec. rewrite Ht, Hs.
  change (valid_key ["staffID"] (staff_key staff_id)) with true.
  cbv iota. unfold lookup. rewrite Hs, find_all_false; [reflexivity|].
  intros it Hit. specialize (Habs it Hit).
  destruct (has_key ["staffID"] (staff_key staff_id) it) eqn:E;
    [|reflexivity].
  apply has_staff_key in E. contradiction.
Qed.

(** A get of a Staff key that no item of the table has returns the empty
    object with status 200. *)
Lemma get_absent_staff_is_empty_200
    (st : store) (t : table) (staff_id : string) (token : pyval) :
  find_table "Staff" st = Some t ->
  schema t = ["staffID"] ->
  (forall it, In it (items t) ->
              dict_get "staffID" it <> Some (S_ staff_id)) ->
  serve st (get_staff staff_id token)
    = (st, [get_item "Staff" [("staffID", S_ staff_id)]], (200, VDict [])).
Proof.
  intros Ht Hs Habs. unfold serve. rewrite run_get_staff. cbv zeta.
  rewrite (exec_get_absent st t staff_id Ht Hs Habs). reflexivity.
Qed.

End ReferenceStore.

Example create_ann :
  serve deployed (create_staff ann (VStr "admin"))
  = (store_with_ann, [put_item "Staff" ann_item],
     (200, message "Staff created successfully")).
Proof. reflexivity. Qed.

Lemma get_absent_staff_is_empty_200_witness :
  serve store_with_ann (get_staff "unknown" (VStr "admin"))
    = (store_with_ann, [get_item "Staff" [("staffID", S_ "unknown")]],
       (200, VDict [])).
Proof.
  apply (get_absent_staff_is_empty_200 store_with_ann staff_table_with_ann
           "unknown" (VStr "admin")).
  - reflexivity.
  - reflexivity.
  - intros it [<-|[]]. cbn. discriminate.
Defined.

(** On every get route, and against any store, an answer without an item
    gives the empty object. *)
Lemma get_routes_without_item {S} (exec : S -> call -> S * result dict)
    (st st' : S) (c : call) (response : dict) :
  exec st c = (st', Ok response) ->
  dict_get "Item" response = None ->
  run exec st (try_except (bind (await c) decode_item) internal_error)
    = (st', [c], Ok (VDict [])).
Proof.
  intros He Hi. rewrite run_get, He. unfold get_outcome, response_get, Ok.
  cbn [fst snd]. now rewrite Hi.
Qed.

(** The same on the reference store, for the key each get route sends: a
    key that no item of the table has gives the empty object, status 200. *)
Lemma get_absent_on_every_route (st : store) (tn : string) (t : table)
    (key : dict) :
  find_table tn st = Some t ->
  valid_key (schema t) key = true ->
  lookup t key = None ->
  serve st (try_except (bind (await (get_item tn key)) decode_item)
              internal_error)
    = (st, [get_item tn key], (200, VDict [])).
Proof.
  intros Ht Hv Hl. unfold serve.
  rewrite (get_routes_without_item exec st st (get_item tn key) []);
    [reflexivity| |reflexivity].
  unfold exec. now rewrite Ht, Hv, Hl.
Qed.

(** ** Reading back what was created *)

Section CreateThenGet.

Variable staff : Staff.

(** The decoder applied to a whole item finds neither an [S] nor an [N]
    among the attribute names. *)
Lemma deserialize_whole_item :
  deserialize_dynamodb_item (VDict (staff_item staff))
    = Err (ValueError "Unsupported DynamoDB data type").
Proof. reflexivity. Qed.

(** Attribute by attribute, as the update routes do, the item decodes. *)
Lemma deserialize_each_attribute :
  deserialize_each (firstn 4 (staff_item staff)) []
    = Ok [ ("staffID", VStr (staffID staff));
           ("fullName", VStr (fullName staff));
           ("employmentType", VStr (employmentType staff));
           ("jobTitle", VStr (jobTitle staff)) ].
Proof. reflexivity. Qed.

Variable st : store.
Variable t : table.
Hypothesis Htable : find_table "Staff" st = Some t.
Hypothesis Hschema : schema t = ["staffID"].

Lemma serve_create_staff (token : pyval) :
  serve st (create_staff staff token)
    = ((after_create staff st t), [put_item "Staff" (staff_item staff)],
       (200, message "Staff created successfully")).
Proof.
  unfold serve, create_staff. rewrite run_delete.
  fold (staff_item staff). unfold exec, after_create.
  rewrite Htable, Hschema. reflexivity.
Qed.

Lemma exec_get_created :
  exec (after_create staff st t) (get_item "Staff" (staff_key (staffID staff)))
    = ((after_create staff st t), Ok [("Item", VDict (staff_item staff))]).
Proof.
  unfold exec, after_create. rewrite find_set_table.
  cbn [schema items]. rewrite Hschema.
  change (valid_key ["staffID"] (staff_key (staffID staff))) with true.
  cbv iota. unfold lookup. cbn [schema items].
  rewrite find_after_misses; [reflexivity| |].
  - intros y Hy. unfold remove in Hy. rewrite Hschema in Hy.
    apply filter_In in Hy. destruct Hy as [_ Hy].
    apply negb_true_iff in Hy. exact Hy.
  - apply has_staff_key. reflexivity.
Qed.

End CreateThenGet.

(** C1 (the code departs from the claim).  After a Staff record is created,
    the get of its [staffID] finds the item and then fails on it: the
    decoder is applied to the whole item, which has no attribute named [S]
    or [N], and the handler answers 500. *)
Theorem created_staff_is_not_read_back
    (st : store) (t : table) (staff : Staff) (token : pyval) :
  find_table "Staff" st = Some t ->
  schema t = ["staffID"] ->
  serve st (create_staff staff token)
    = (after_create staff st t, [put_item "Staff" (staff_item staff)],
       (200, message "Staff created successfully")) /\
  serve (after_create staff st t) (get_staff (staffID staff) token)
    = (after_create staff st t,
       [get_item "Staff" [("staffID", S_ (staffID staff))]],
       (500, VDict [("detail", VStr "Unsupported DynamoDB data type")])).
Proof.
  intros Ht Hs. split.
  - now apply serve_create_staff.
  - unfold serve. rewrite run_get_staff. cbv zeta.
    rewrite (exec_get_created staff st t Hs). reflexivity.
Qed.

Lemma created_staff_is_not_read_back_witness :
  serve deployed (create_staff ann (VStr "admin"))
    = (store_with_ann, [put_item "Staff" ann_item],
       (200, message "Staff created successfully")) /\
  serve store_with_ann (get_staff "S1" (VStr "admin"))
    = (store_with_ann, [get_item "Staff" [("staffID", S_ "S1")]],
       (500, VDict [("detail", VStr "Unsupported DynamoDB data type")])).
Proof.
  apply (created_staff_is_not_read_back deployed
           {| schema := ["staffID"]; items := [] |} ann (VStr "admin"));
    reflexivity.
Defined.

(** ** Encoding and decoding of typed values *)

Section RoundTrip.

Lemma contains_str_single (c : ascii) (s : string) :
  contains_str (String c "") s = contains_char c s.
Proof.
  unfold contains_str. induction s as [|a r IH].
  - reflexivity.
  - cbn [index prefix contains_char].
    destruct (ascii_dec c a) as [->|Hne].
    + rewrite Ascii.eqb_refl. now destruct r.
    + assert (E : Ascii.eqb a c = false)
        by (apply Ascii.eqb_neq; congruence).
      rewrite E. cbn [orb]. rewrite <- IH.
      now destruct (index 0 (String c "") r).
Qed.

Lemma uint_str_no_dot (d : uint) :
  contains_char "." (NilEmpty.string_of_uint d) = false.
Proof. induction d; cbn; auto. Qed.

Lemma int_str_no_dot (z : Z) : contains_char "." (int_str z) = false.
Proof.
  unfold int_str.
  destruct (Z.to_int z) as [d|d]; cbn [NilZero.string_of_int];
    destruct d; cbn; auto using uint_str_no_dot.
Qed.

Lemma int_of_str_unsigned (s : string) :
  (forall r, s <> String "+" r) ->
  int_of_str s = option_map Z.of_int (NilZero.int_of_string s).
Proof.
  intros H. destruct s as [|a r]; [reflexivity|].
  destruct a as [[] [] [] [] [] [] [] []]; try reflexivity.
  exfalso. now apply (H r).
Qed.

(** [int(str(n))] is [n]. *)
Lemma int_of_str_int_str (z : Z) : int_of_str (int_str z) = Some z.
Proof.
  unfold int_str. rewrite int_of_str_unsigned.
  - rewrite NilZero.isi.
    + cbn. now rewrite DecimalZ.of_to.
    + destruct z; cbn; try discriminate.
      intros [= H]. now apply DecimalPos.Unsigned.to_uint_nonnil in H.
    + destruct z; cbn; try discriminate.
      intros [= H]. now apply DecimalPos.Unsigned.to_uint_nonnil in H.
  - intros r. destruct (Z.to_int z) as [d|d]; cbn; [|discriminate].
    destruct d; cbn; discriminate.
Qed.

(** The decoder on a number: [float] when the text has a point, [int]
    when it has none. *)
Lemma decode_N (text : string) :
  deserialize_dynamodb_item (N_ text)
    = if contains_char "." text
      then py_float (VStr text) else py_int (VStr text).
Proof.
  unfold deserialize_dynamodb_item. cbn.
  now rewrite (contains_str_single "." text).
Qed.

Lemma decode_N_without_point (text : string) :
  contains_char "." text = false ->
  deserialize_dynamodb_item (N_ text) = py_int (VStr text).
Proof. intros H. now rewrite decode_N, H. Qed.

Lemma decode_N_with_point (text : string) :
  contains_char "." text = true ->
  deserialize_dynamodb_item (N_ text) = py_float (VStr text).
Proof. intros H. now rewrite decode_N, H. Qed.

Lemma decode_S (v : pyval) (rest : dict) :
  deserialize_dynamodb_item (VDict (("S", v) :: rest)) = Ok v.
Proof. reflexivity. Qed.

(** A str field comes back as it was. *)
Lemma round_trip_str (s : string) :
  deserialize_dynamodb_item (typed_value (VStr s)) = Ok (VStr s).
Proof. reflexivity. Qed.

(** An int comes back as the same int. *)
Lemma round_trip_int (z : Z) :
  deserialize_dynamodb_item (typed_value (VInt z)) = Ok (VInt z).
Proof.
  change (typed_value (VInt z)) with (N_ (int_str z)).
  rewrite decode_N, int_str_no_dot. cbn [py_int].
  now rewrite int_of_str_int_str.
Qed.

Lemma decode_other_tag (d : dict) :
  dict_mem "S" d = false ->
  dict_mem "N" d = false ->
  deserialize_dynamodb_item (VDict d)
    = Err (ValueError "Unsupported DynamoDB data type").
Proof.
  intros HS HN. unfold deserialize_dynamodb_item. cbn.
  now rewrite HS, HN.
Qed.

End RoundTrip.

Example round_trip_15_5 :
  deserialize_dynamodb_item (N_ (py_str (VFloat (FDec false 155 (-1)))))
    = Ok (VFloat (FDec false 155 (-1))).
Proof. reflexivity. Qed.

Example round_trip_1_5e16 :
  deserialize_dynamodb_item (N_ (py_str (VFloat (FDec false 15 15))))
    = Ok (VFloat (FDec false 15 15)).
Proof. reflexivity. Qed.

(** On the sample, a float comes back exactly when its text has a point. *)
Example float_round_trip_sample :
  forallb (fun x => Bool.eqb (float_round_trips x)
                      (contains_char "." (float_repr x)))
    float_sample = true.
Proof. vm_compute. reflexivity. Qed.

Example float_without_point_sample :
  map float_repr
    (firstn 4 (filter (fun x => negb (float_round_trips x)) float_sample))
  = ["1e-25"; "-1e-25"; "1e-24"; "-1e-24"].
Proof. vm_compute. reflexivity. Qed.

(** C7 (the code departs from the claim).  The float 1e16 is written by
    [create_staff] as [{N: "1e+16"}]; the text has no decimal point, the
    decoder hands it to [int], and [int] raises: the value does not come
    back, neither from the decoder nor from the decoding of the attributes
    of an update. *)
Theorem exponent_float_is_not_decoded :
  let staff := {| staffID := "S2"; fullName := "Bob"; employmentType := "PT";
                  jobTitle := "Carer"; hourlyRate := FDec false 1 16 |} in
  calls_of exec deployed (create_staff staff (VStr "admin"))
    = [put_item "Staff"
         [ ("staffID", S_ "S2"); ("fullName", S_ "Bob");
           ("employmentType", S_ "PT"); ("jobTitle", S_ "Carer");
           ("hourlyRate", N_ "1e+16") ]] /\
  deserialize_dynamodb_item (N_ "1e+16")
    = Err (ValueError "invalid literal for int() with base 10: '1e+16'") /\
  deserialize_attributes (VDict [("hourlyRate", N_ "1e+16")])
    = Err (ValueError "invalid literal for int() with base 10: '1e+16'").
Proof. cbv zeta. repeat split; reflexivity. Qed.

(* ================================================================== *)
(** * Further properties of the code *)
(* ================================================================== *)

(** ** Token service *)

Section TokenServiceMore.

Variable env : Env.
Variable g : Auth.Globals.



(** X3.  A lifetime configured as zero minutes does not give tokens that
    expire at once: the zero [timedelta] is false, and the token gets the
    15 minutes of the default. *)
Theorem zero_minutes_give_fifteen
    (form : OAuth2PasswordRequestForm) (tok : Token) :
  login env g form = Ok tok ->
  Auth.ACCESS_TOKEN_EXPIRE_MINUTES g = 0 ->
  token_exp (access_token tok) = Some (VInt (Auth.utc_now g + 900)).
Proof.
  intros Hlogin Hzero.
  destruct (login_ok_inv env g form tok Hlogin) as (_ & _ & ->).
  cbn [access_token]. rewrite create_access_token_exp.
  unfold ttl_seconds, Auth.timedelta_minutes. rewrite Hzero. reflexivity.
Qed.

Lemma dict_get_set_other (k k' : string) (v : pyval) (d : dict) :
  k <> k' -> dict_get k (dict_set k' v d) = dict_get k d.
Proof.
  intros Hne. induction d as [|[a w] r IH]; cbn.
  - destruct (String.eqb_spec k k'); [contradiction|reflexivity].
  - destruct (String.eqb_spec k' a) as [->|Ha]; cbn.
    + destruct (String.eqb_spec k a); [contradiction|reflexivity].
    + destruct (String.eqb_spec k a); [reflexivity|exact IH].
Qed.

(** X4.  [create_access_token] signs with the key and algorithm of the
    process, keeps every claim of [data] other than [exp], and sets [exp]
    itself, also over an [exp] that [data] brought along. *)
Theorem create_access_token_keeps_claims
    (data : dict) (d : option Z) (k : string) :
  k <> "exp" ->
  (exists payload,
     Auth.create_access_token g data d
       = Jwt.Signed "HS256" (Auth.SECRET_KEY g) payload) /\
  dict_get k (token_payload (Auth.create_access_token g data d))
    = dict_get k data /\
  dict_get "exp" (token_payload (Auth.create_access_token g data d))
    = Some (VInt (Auth.utc_now g +
                  if Auth.timedelta_truthy d
                  then match d with Some x => x | None => 0 end
                  else 900)).
Proof.
  intros Hk. split; [eexists; reflexivity|]. split.
  - unfold Auth.create_access_token, Jwt.encode, token_payload, dict_update.
    cbn [fold_left fst snd]. now apply dict_get_set_other.
  - exact (create_access_token_exp g data d).
Qed.




End TokenServiceMore.



Lemma zero_minutes_give_fifteen_witness :
  token_exp
    (Jwt.Signed "HS256" "k3y" [("sub", VStr "admin"); ("exp", VInt 1900)])
  = Some (VInt (1000 + 900)).
Proof.
  apply (zero_minutes_give_fifteen env0 g_zero form0
           {| access_token :=
                Jwt.Signed "HS256" "k3y"
                  [("sub", VStr "admin"); ("exp", VInt 1900)];
              token_type := "bearer" |}).
  - reflexivity.
  - reflexivity.
Defined.

Lemma create_access_token_keeps_claims_witness :
  (exists payload,
     Auth.create_access_token g0 [("sub", VStr "admin"); ("exp", VInt 7)]
       (Some 60)
       = Jwt.Signed "HS256" (Auth.SECRET_KEY g0) payload) /\
  dict_get "sub"
    (token_payload
       (Auth.create_access_token g0 [("sub", VStr "admin"); ("exp", VInt 7)]
          (Some 60)))
    = Some (VStr "admin") /\
  dict_get "exp"
    (token_payload
       (Auth.create_access_token g0 [("sub", VStr "admin"); ("exp", VInt 7)]
          (Some 60)))
    = Some (VInt (1000 + 60)).
Proof.
  apply (create_access_token_keeps_claims g0
           [("sub", VStr "admin"); ("exp", VInt 7)] (Some 60) "sub").
  discriminate.
Defined.

(** ** Every route, against every store *)

Section Routes.

Lemma decode_item_lift (response : dict) :
  decode_item response =
  lift (if truthy (response_get "Item" response)
        then deserialize_dynamodb_item (response_get "Item" response)
        else Ok (VDict [])).
Proof.
  unfold decode_item.
  now destruct (truthy (response_get "Item" response)).
Qed.

(** A route that awaits one call inside its [try] and then only computes. *)
Lemma one_call_shape (c : call) (k : dict -> prog pyval)
    (f : dict -> result pyval) :
  (forall d, k d = lift (f d)) ->
  one_call_route (try_except (bind (await c) k) internal_error) c.
Proof.
  intros Hk S exec st.
  unfold rejection_is_500, status_of. unfold calls_of, outcome_of.
  rewrite run_try_await.
  destruct (exec st c) as [st1 [d|e]] eqn:He.
  - rewrite Hk, run_try_lift. cbn [fst snd]. split; [reflexivity|].
    split; [intros st' e' [= _ H]; discriminate H|].
    destruct (f d); [left|right]; reflexivity.
  - cbn [fst snd]. split; [reflexivity|]. split.
    + intros st' e' [= _ <-]. reflexivity.
    + right. reflexivity.
Qed.

Lemma one_call_message (c : call) (text : string) :
  one_call_route
    (try_except (bind (await c) (fun _ => Ret (message text)))
       internal_error) c.
Proof.
  apply (one_call_shape c _ (fun _ => Ok (message text))). reflexivity.
Qed.

Lemma one_call_get (c : call) :
  one_call_route (try_except (bind (await c) decode_item) internal_error) c.
Proof.
  apply (one_call_shape c _
           (fun d => if truthy (response_get "Item" d)
                     then deserialize_dynamodb_item (response_get "Item" d)
                     else Ok (VDict []))).
  exact decode_item_lift.
Qed.

Lemma one_call_update (c : call) :
  one_call_route
    (try_except
       (bind (await c)
          (fun response =>
             lift (deserialize_attributes
                     (response_get "Attributes" response))))
       internal_error) c.
Proof.
  apply (one_call_shape c _
           (fun d => deserialize_attributes (response_get "Attributes" d))).
  reflexivity.
Qed.

(** The bodies of the twelve single-item handlers, whatever [token] they
    are entered with. *)
Lemma every_body_is_one_call
    (staff : Staff) (s : MainRest.Shift) (e : MainRest.Expense)
    (id date : string) (request : UpdateStaffRequest) (token : pyval) :
  one_call_route (create_staff staff token)
    (put_item "Staff" (staff_item staff)) /\
  one_call_route (get_staff id token) (get_item "Staff" (staff_key id)) /\
  one_call_route (update_staff id request token)
    (update_call "Staff" (staff_key id) request) /\
  one_call_route (delete_staff id token)
    (delete_item "Staff" (staff_key id)) /\
  one_call_route (MainRest.create_shift s token)
    (put_item "Shifts" (MainRest.shift_item s)) /\
  one_call_route (get_shift id date token)
    (get_item "Shifts" (shift_key "shift_id" date)) /\
  one_call_route (update_shift id date request token)
    (update_call "Shifts" (shift_key "shift_id" date) request) /\
  one_call_route (delete_shift id date token)
    (delete_item "Shifts" (shift_key "shift_id" date)) /\
  one_call_route (MainRest.create_expense e token)
    (put_item "Expenses" (MainRest.expense_item e)) /\
  one_call_route (get_expense id date token)
    (get_item "Expenses" (expense_key id date)) /\
  one_call_route (update_expense id date request token)
    (update_call "Expenses" (expense_key id date) request) /\
  one_call_route (delete_expense id date token)
    (delete_item "Expenses" (expense_key id date)).
Proof.
  repeat apply conj;
    first [ apply one_call_message | apply one_call_get
          | apply one_call_update ].
Qed.

(** Whatever [verify_token] raises is the one 401. *)
Lemma verify_token_refusal (g : Auth.Globals) (now : Z) (t : Jwt.token)
    (e : exn) :
  Auth.verify_token g now t = Err e -> e = Auth.credentials_exception.
Proof.
  unfold Auth.verify_token.
  destruct (Jwt.decode t (Auth.SECRET_KEY g) [Auth.ALGORITHM] now)
    as [payload|err]; [|now intros [= <-]].
  destruct (dict_get "sub" payload) as [[| | | |]|];
    try discriminate; now intros [= <-].
Qed.

(** A body that makes one call, behind the dependency. *)
Lemma guarded_of_one_call (handler : pyval -> prog pyval) (c : call) :
  (forall token, one_call_route (handler token) c) ->
  guarded_route handler c.
Proof.
  intros H g now bearer S exec st. unfold depends_verify_token. split.
  - intros e He. rewrite He.
    apply verify_token_refusal in He. subst e. split; reflexivity.
  - intros u Hu. rewrite Hu. exact (H u S exec st).
Qed.

(** X6.  Each of the twelve single-item routes, on a request that carries
    a bearer token and whose parameters the router accepted: when
    [verify_token] refuses the token the route answers 401 and makes no
    store call; otherwise it issues exactly one store call, whatever the
    store answers, a rejection of that call comes back as HTTP 500 with
    the text of the store as detail, and the status is 200 or 500. *)
Theorem every_route_verifies_then_calls_once
    (staff : Staff) (s : MainRest.Shift) (e : MainRest.Expense)
    (id date : string) (request : UpdateStaffRequest) :
  guarded_route (create_staff staff)
    (put_item "Staff" (staff_item staff)) /\
  guarded_route (get_staff id) (get_item "Staff" (staff_key id)) /\
  guarded_route (update_staff id request)
    (update_call "Staff" (staff_key id) request) /\
  guarded_route (delete_staff id) (delete_item "Staff" (staff_key id)) /\
  guarded_route (MainRest.create_shift s)
    (put_item "Shifts" (MainRest.shift_item s)) /\
  guarded_route (get_shift id date)
    (get_item "Shifts" (shift_key "shift_id" date)) /\
  guarded_route (update_shift id date request)
    (update_call "Shifts" (shift_key "shift_id" date) request) /\
  guarded_route (delete_shift id date)
    (delete_item "Shifts" (shift_key "shift_id" date)) /\
  guarded_route (MainRest.create_expense e)
    (put_item "Expenses" (MainRest.expense_item e)) /\
  guarded_route (get_expense id date)
    (get_item "Expenses" (expense_key id date)) /\
  guarded_route (update_expense id date request)
    (update_call "Expenses" (expense_key id date) request) /\
  guarded_route (delete_expense id date)
    (delete_item "Expenses" (expense_key id date)).
Proof.
  repeat apply conj; apply guarded_of_one_call; intros token;
    apply (every_body_is_one_call staff s e id date request token).
Qed.

End Routes.

(** ** Get routes, against every store *)

Section GetRoutes.

Context {S : Type}.
Variable exec : S -> call -> S * result dict.
Variable st : S.

Lemma get_outcome_unsupported (response item : dict) :
  dict_get "Item" response = Some (VDict item) ->
  item <> [] ->
  dict_mem "S" item = false ->
  dict_mem "N" item = false ->
  get_outcome (Ok response)
    = Err (internal_error (ValueError "Unsupported DynamoDB data type")).
Proof.
  intros Hi Hne HS HN. unfold get_outcome, Ok, response_get. rewrite Hi.
  destruct item as [|kv r]; [contradiction|]. cbn [truthy].
  now rewrite decode_other_tag.
Qed.

Lemma get_fails_shape (c : call) (item : dict) :
  item <> [] ->
  dict_mem "S" item = false ->
  dict_mem "N" item = false ->
  get_fails_on exec st
    (try_except (bind (await c) decode_item) internal_error) c item.
Proof.
  intros Hne HS HN st' response He Hi. unfold outcome_of.
  rewrite run_get, He. cbn [fst snd].
  now rewrite (get_outcome_unsupported response item Hi Hne HS HN).
Qed.

Lemma get_empty_shape (c : call) :
  get_empty_on exec st
    (try_except (bind (await c) decode_item) internal_error) c.
Proof.
  intros st' response He Hi. unfold outcome_of.
  now rewrite (get_routes_without_item exec st st' c response He Hi).
Qed.

(** X7.  No item written by a create route comes back through a get
    route: whenever the store answers the get with such an item, of Staff,
    Shift or Expense, the route answers 500, unsupported data type. *)
Theorem created_items_are_never_returned
    (staff : Staff) (s : MainRest.Shift) (e : MainRest.Expense)
    (id date : string) (token : pyval) :
  get_fails_on exec st (get_staff id token)
    (get_item "Staff" (staff_key id)) (staff_item staff) /\
  get_fails_on exec st (get_shift id date token)
    (get_item "Shifts" (shift_key "shift_id" date))
    (MainRest.shift_item s) /\
  get_fails_on exec st (get_expense id date token)
    (get_item "Expenses" (expense_key id date))
    (MainRest.expense_item e).
Proof.
  repeat apply conj; apply get_fails_shape;
    solve [discriminate | reflexivity].
Qed.

(** X8.  On each of the three get routes an answer of the store without
    an item gives the empty object with status 200. *)
Theorem get_without_item_is_empty (id date : string) (token : pyval) :
  get_empty_on exec st (get_staff id token)
    (get_item "Staff" (staff_key id)) /\
  get_empty_on exec st (get_shift id date token)
    (get_item "Shifts" (shift_key "shift_id" date)) /\
  get_empty_on exec st (get_expense id date token)
    (get_item "Expenses" (expense_key id date)).
Proof. repeat apply conj; apply get_empty_shape. Qed.

End GetRoutes.

(** ** A key that is absent, on the three get routes *)

(** The update route of Shift leaves an item under the key it sends. *)
Example update_shift_leaves_placeholder :
  serve deployed
    (update_shift "S1" "2024-01-01" {| updates := [("house", "H1")] |}
       (VStr "admin"))
  = (store_with_placeholder,
     [update_call "Shifts" (shift_key "shift_id" "2024-01-01")
        {| updates := [("house", "H1")] |}],
     (200, VDict [("house", VStr "H1")])).
Proof. reflexivity. Qed.

(** C9 (the code departs from the claim).  In a store where the key of the
    request is absent from each table, [get_staff] and [get_expense] answer
    the empty object with status 200, and [get_shift] does not: it asks
    for the identifier [shift_id] whatever the request names, and when the
    table holds an item under that identifier and the date, it answers 500
    on that item. *)
Theorem absent_shift_is_answered_from_placeholder
    (st : store) (ts tsh te : table) (item : dict)
    (staff_id shift_id expense_id date : string) (token : pyval) :
  find_table "Staff" st = Some ts ->
  schema ts = ["staffID"] ->
  lookup ts (staff_key staff_id) = None ->
  find_table "Expenses" st = Some te ->
  schema te = ["expenseID"; "date"] ->
  lookup te (expense_key expense_id date) = None ->
  find_table "Shifts" st = Some tsh ->
  schema tsh = ["shiftID"; "startDate"] ->
  lookup tsh (shift_key shift_id date) = None ->
  lookup tsh (shift_key "shift_id" date) = Some item ->
  dict_mem "S" item = false ->
  dict_mem "N" item = false ->
  serve st (get_staff staff_id token)
    = (st, [get_item "Staff" (staff_key staff_id)], (200, VDict [])) /\
  serve st (get_expense expense_id date token)
    = (st, [get_item "Expenses" (expense_key expense_id date)],
       (200, VDict [])) /\
  serve st (get_shift staff_id date token)
    = (st, [get_item "Shifts" (shift_key "shift_id" date)],
       (500, VDict [("detail", VStr "Unsupported DynamoDB data type")])).
Proof.
  intros Hts Hss Hls Hte Hse Hle Htsh Hssh Habs Hitem HS HN.
  repeat apply conj.
  - apply (get_absent_on_every_route st "Staff" ts (staff_key staff_id) Hts);
      [now rewrite Hss|exact Hls].
  - apply (get_absent_on_every_route st "Expenses" te
             (expense_key expense_id date) Hte);
      [now rewrite Hse|exact Hle].
  - assert (Hne : item <> []).
    { intros ->. apply find_some in Hitem. destruct Hitem as [_ Hk].
      rewrite Hssh in Hk. discriminate Hk. }
    assert (He : exec st (get_item "Shifts" (shift_key "shift_id" date))
                 = (st, Ok [("Item", VDict item)])).
    { unfold exec. rewrite Htsh, Hssh.
      change (valid_key ["shiftID"; "startDate"] (shift_key "shift_id" date))
        with true.
      cbv iota. now rewrite Hitem. }
    unfold serve. rewrite run_get_shift. cbv zeta. rewrite He.
    cbn [fst snd].
    exact (f_equal (fun out => (st, _, http_response out))
             (get_outcome_unsupported [("Item", VDict item)] item
                eq_refl Hne HS HN)).
Qed.

Lemma absent_shift_is_answered_from_placeholder_witness :
  serve store_with_placeholder (get_staff "unknown" (VStr "admin"))
    = (store_with_placeholder, [get_item "Staff" (staff_key "unknown")],
       (200, VDict [])) /\
  serve store_with_placeholder
    (get_expense "E9" "2024-01-01" (VStr "admin"))
    = (store_with_placeholder,
       [get_item "Expenses" (expense_key "E9" "2024-01-01")],
       (200, VDict [])) /\
  serve store_with_placeholder (get_shift "S1" "2024-01-01" (VStr "admin"))
    = (store_with_placeholder,
       [get_item "Shifts" (shift_key "shift_id" "2024-01-01")],
       (500, VDict [("detail", VStr "Unsupported DynamoDB data type")])).
Proof.
  apply (absent_shift_is_answered_from_placeholder store_with_placeholder
           {| schema := ["staffID"]; items := [] |}
           shifts_with_placeholder
           {| schema := ["expenseID"; "date"]; items := [] |}
           placeholder_shift "unknown" "SH9" "E9" "2024-01-01"
           (VStr "admin"));
    reflexivity.
Defined.

(** ** Update routes, against every store *)

Section UpdateRoutes.

Lemma deserialize_each_typed (d acc : dict) :
  Forall (fun kv => is_str (snd kv) = true) d ->
  NoDup (dict_keys (acc ++ d)%list) ->
  deserialize_each (typed_items d) acc = Ok (acc ++ d)%list.
Proof.
  revert acc. induction d as [|[k v] r IH]; intros acc Hstr Hnd.
  - cbn. now rewrite List.app_nil_r.
  - inversion Hstr as [|? ? Hv Hr]; subst. cbn in Hv.
    destruct v as [|s| | |]; try discriminate.
    cbn [typed_items map fst snd deserialize_each].
    change (deserialize_dynamodb_item (typed_value (VStr s)))
      with (Ok (VStr s)).
    cbn [rbind Ok].
    assert (Hk : ~ In k (dict_keys acc)).
    { unfold dict_keys in *. rewrite map_app in Hnd. cbn in Hnd.
      apply NoDup_remove_2 in Hnd. intros Hin. apply Hnd.
      apply in_or_app. now left. }
    rewrite (dict_set_fresh k (VStr s) acc Hk).
    fold (typed_items r). rewrite IH.
    + now rewrite <- List.app_assoc.
    + exact Hr.
    + now rewrite <- List.app_assoc.
Qed.

(** Decoding the typed form of an updates mapping gives the mapping. *)
Lemma deserialize_attributes_typed (request : UpdateStaffRequest) :
  deserialize_attributes (VDict (typed_items (updates_dict request)))
    = Ok (VDict (updates_dict request)).
Proof.
  unfold deserialize_attributes.
  destruct (updates_dict request) as [|kv r] eqn:E; [reflexivity|].
  cbn [typed_items map truthy]. fold (typed_items r).
  change ((fst kv, typed_value (snd kv)) :: typed_items r)
    with (typed_items (kv :: r)).
  rewrite (deserialize_each_typed (kv :: r) []).
  - reflexivity.
  - rewrite <- E. apply updates_are_str.
  - rewrite List.app_nil_l, <- E. apply updates_nodup.
Qed.

Context {S : Type}.
Variable exec : S -> call -> S * result dict.
Variable st : S.

Lemma update_echoes_shape (c : call) (request : UpdateStaffRequest) :
  update_echoes exec st
    (try_except
       (bind (await c)
          (fun response =>
             lift (deserialize_attributes
                     (response_get "Attributes" response))))
       internal_error) c request.
Proof.
  intros st' response He Ha. unfold outcome_of.
  rewrite run_update, He. cbn [fst snd].
  unfold update_outcome, Ok, response_get. rewrite Ha.
  now rewrite deserialize_attributes_typed.
Qed.

(** X9.  When the store answers an update with the new values of the
    updated attributes, the route answers 200 with the updates mapping
    itself: every value comes back as the string that was sent, numeric
    text included, on each of the three update routes. *)
Theorem update_answers_what_was_sent
    (id date : string) (request : UpdateStaffRequest) (token : pyval) :
  update_echoes exec st (update_staff id request token)
    (update_call "Staff" (staff_key id) request) request /\
  update_echoes exec st (update_shift id date request token)
    (update_call "Shifts" (shift_key "shift_id" date) request) request /\
  update_echoes exec st (update_expense id date request token)
    (update_call "Expenses" (expense_key id date) request) request.
Proof. repeat apply conj; apply update_echoes_shape. Qed.

End UpdateRoutes.

(** ** Routes composed on the reference store *)

Section Composed.

Lemma dict_mem_get (k : string) (d : dict) :
  dict_mem k d = true -> exists v, dict_get k d = Some v.
Proof.
  induction d as [|[k' v] r IH]; cbn; [discriminate|].
  destruct (String.eqb k k'); cbn; eauto.
Qed.

Lemma has_key_agree (sch : list string) (key key' it : dict) :
  (forall a, In a sch -> dict_get a key = dict_get a key') ->
  has_key sch key it = has_key sch key' it.
Proof.
  intros H. unfold has_key.
  induction sch as [|a r IH]; cbn; [reflexivity|].
  rewrite (H a) by now left.
  rewrite IH; [reflexivity|]. intros b Hb. apply H. now right.
Qed.

Lemma has_key_self (sch : list string) (key item : dict) :
  (forall a, In a sch -> dict_get a key = dict_get a item) ->
  forallb (fun a => dict_mem a item) sch = true ->
  has_key sch key item = true.
Proof.
  intros Hag Hmem. unfold has_key. apply forallb_forall. intros a Ha.
  rewrite forallb_forall in Hmem.
  destruct (dict_mem_get a item (Hmem a Ha)) as [v Hv].
  rewrite (Hag a Ha), Hv. apply pyval_eqb_refl.
Qed.

Lemma lookup_removed (sch : list string) (key : dict) (l : list dict) :
  find (has_key sch key)
    (filter (fun it => negb (has_key sch key it)) l) = None.
Proof.
  apply find_all_false. intros x Hx. apply filter_In in Hx.
  destruct Hx as [_ Hx]. now apply negb_true_iff in Hx.
Qed.

Lemma lookup_replaced (sch : list string) (key key' item : dict)
    (l : list dict) :
  (forall a, In a sch -> dict_get a key' = dict_get a key) ->
  has_key sch key' item = true ->
  find (has_key sch key')
    (filter (fun it => negb (has_key sch key it)) l ++ [item])%list
  = Some item.
Proof.
  intros Hag Hit. apply find_after_misses; [|exact Hit].
  intros y Hy. apply filter_In in Hy. destruct Hy as [_ Hy].
  apply negb_true_iff in Hy.
  now rewrite (has_key_agree sch key' key y Hag).
Qed.

Variable st : store.
Variable tn : string.
Variable t : table.
Hypothesis Htable : find_table tn st = Some t.

Lemma exec_put (item : dict) :
  forallb (fun a => dict_mem a item) (schema t) = true ->
  exec st (put_item tn item) = (after_put tn item st t, Ok []).
Proof. intros H. unfold exec. now rewrite Htable, H. Qed.

Lemma exec_get_after_put (item key : dict) :
  forallb (fun a => dict_mem a item) (schema t) = true ->
  valid_key (schema t) key = true ->
  (forall a, In a (schema t) -> dict_get a key = dict_get a item) ->
  exec (after_put tn item st t) (get_item tn key)
    = (after_put tn item st t, Ok [("Item", VDict item)]).
Proof.
  intros Hmem Hvalid Hag. unfold exec, after_put.
  rewrite find_set_table. cbn [schema items]. rewrite Hvalid.
  unfold lookup, remove. cbn [schema items].
  rewrite lookup_replaced; [reflexivity|exact Hag|].
  now apply has_key_self.
Qed.

Lemma exec_delete (key : dict) :
  valid_key (schema t) key = true ->
  exec st (delete_item tn key) = (after_delete tn key st t, Ok []).
Proof. intros H. unfold exec. now rewrite Htable, H. Qed.

Lemma exec_get_after_delete (key : dict) :
  valid_key (schema t) key = true ->
  exec (after_delete tn key st t) (get_item tn key)
    = (after_delete tn key st t, Ok []).
Proof.
  intros Hvalid. unfold exec, after_delete.
  rewrite find_set_table. cbn [schema items]. rewrite Hvalid.
  unfold lookup, remove. cbn [schema items].
  now rewrite lookup_removed.
Qed.

Lemma set_table_twice (name : string) (a b : table) (s : store) :
  set_table name a (set_table name b s) = set_table name a s.
Proof.
  induction s as [|[n x] r IH]; cbn.
  - now rewrite String.eqb_refl.
  - destruct (String.eqb_spec name n) as [->|Hn]; cbn.
    + now rewrite String.eqb_refl.
    + destruct (String.eqb_spec name n); [contradiction|now rewrite IH].
Qed.

Lemma filter_twice {A} (f : A -> bool) (l : list A) :
  filter f (filter f l) = filter f l.
Proof.
  induction l as [|a l IH]; cbn; [reflexivity|].
  destruct (f a) eqn:E; cbn; [rewrite E|]; now rewrite ?IH.
Qed.

Lemma exec_delete_again (key : dict) :
  valid_key (schema t) key = true ->
  exec (after_delete tn key st t) (delete_item tn key)
    = (after_delete tn key st t, Ok []).
Proof.
  intros Hvalid. unfold exec, after_delete.
  rewrite find_set_table. cbn [schema items]. rewrite Hvalid.
  unfold remove. cbn [schema items].
  now rewrite filter_twice, set_table_twice.
Qed.

End Composed.

Section ComposedRoutes.

Variable st : store.
Variable t : table.

(** X10.  After an Expense record is created, the get of its identifier
    and date finds the item and answers 500: like a Staff record, an
    Expense record cannot be read back through its get route. *)
Theorem created_expense_is_not_read_back
    (e : MainRest.Expense) (token : pyval) :
  find_table "Expenses" st = Some t ->
  schema t = ["expenseID"; "date"] ->
  let st1 := after_put "Expenses" (MainRest.expense_item e) st t in
  serve st (MainRest.create_expense e token)
    = (st1, [put_item "Expenses" (MainRest.expense_item e)],
       (200, message "Expense created successfully")) /\
  serve st1
    (get_expense (MainRest.expenseID e) (MainRest.date e) token)
    = (st1,
       [get_item "Expenses"
          (expense_key (MainRest.expenseID e) (MainRest.date e))],
       (500, VDict [("detail", VStr "Unsupported DynamoDB data type")])).
Proof.
  intros Ht Hs. cbv zeta. split.
  - unfold serve, MainRest.create_expense. rewrite run_delete.
    rewrite (exec_put st "Expenses" t Ht); [reflexivity|].
    rewrite Hs. reflexivity.
  - unfold serve. rewrite run_get_expense. cbv zeta.
    rewrite (exec_get_after_put st "Expenses" t).
    + reflexivity.
    + rewrite Hs. reflexivity.
    + rewrite Hs. reflexivity.
    + rewrite Hs. intros a [<-|[<-|[]]]; reflexivity.
Qed.

(** X11.  Deleting a Staff key answers success whether or not an item has
    it; afterwards the get of that key gives the empty object, and a second
    delete answers success again and leaves the store as it is. *)
Theorem delete_staff_then_get (id : string) (token : pyval) :
  find_table "Staff" st = Some t ->
  schema t = ["staffID"] ->
  let st1 := after_delete "Staff" (staff_key id) st t in
  serve st (delete_staff id token)
    = (st1, [delete_item "Staff" (staff_key id)],
       (200, message "Staff deleted successfully")) /\
  serve st1 (get_staff id token)
    = (st1, [get_item "Staff" (staff_key id)], (200, VDict [])) /\
  serve st1 (delete_staff id token)
    = (st1, [delete_item "Staff" (staff_key id)],
       (200, message "Staff deleted successfully")).
Proof.
  intros Ht Hs. cbv zeta.
  assert (Hv : valid_key (schema t) (staff_key id) = true)
    by (rewrite Hs; reflexivity).
  repeat apply conj.
  - unfold serve, delete_staff. rewrite run_delete.
    fold (staff_key id).
    now rewrite (exec_delete st "Staff" t Ht (staff_key id) Hv).
  - unfold serve. rewrite run_get_staff. cbv zeta.
    now rewrite (exec_get_after_delete st "Staff" t (staff_key id) Hv).
  - unfold serve, delete_staff. rewrite run_delete.
    fold (staff_key id).
    now rewrite (exec_delete_again st "Staff" t (staff_key id) Hv).
Qed.

(** X12.  The same for an Expense key of identifier and date. *)
Theorem delete_expense_then_get (id date : string) (token : pyval) :
  find_table "Expenses" st = Some t ->
  schema t = ["expenseID"; "date"] ->
  let st1 := after_delete "Expenses" (expense_key id date) st t in
  serve st (delete_expense id date token)
    = (st1, [delete_item "Expenses" (expense_key id date)],
       (200, message "Expense deleted successfully")) /\
  serve st1 (get_expense id date token)
    = (st1, [get_item "Expenses" (expense_key id date)], (200, VDict [])) /\
  serve st1 (delete_expense id date token)
    = (st1, [delete_item "Expenses" (expense_key id date)],
       (200, message "Expense deleted successfully")).
Proof.
  intros Ht Hs. cbv zeta.
  assert (Hv : valid_key (schema t) (expense_key id date) = true)
    by (rewrite Hs; reflexivity).
  repeat apply conj.
  - unfold serve, delete_expense. rewrite run_delete.
    fold (expense_key id date).
    now rewrite (exec_delete st "Expenses" t Ht (expense_key id date) Hv).
  - unfold serve. rewrite run_get_expense. cbv zeta.
    now rewrite (exec_get_after_delete st "Expenses" t
                   (expense_key id date) Hv).
  - unfold serve, delete_expense. rewrite run_delete.
    fold (expense_key id date).
    now rewrite (exec_delete_again st "Expenses" t
                   (expense_key id date) Hv).
Qed.

End ComposedRoutes.

Lemma created_expense_is_not_read_back_witness :
  let st1 := after_put "Expenses" (MainRest.expense_item fuel_bill) deployed
               {| schema := ["expenseID"; "date"]; items := [] |} in
  serve deployed (MainRest.create_expense fuel_bill (VStr "admin"))
    = (st1, [put_item "Expenses" (MainRest.expense_item fuel_bill)],
       (200, message "Expense created successfully")) /\
  serve st1 (get_expense "E1" "2024-01-01" (VStr "admin"))
    = (st1, [get_item "Expenses" (expense_key "E1" "2024-01-01")],
       (500, VDict [("detail", VStr "Unsupported DynamoDB data type")])).
Proof.
  apply (created_expense_is_not_read_back deployed
           {| schema := ["expenseID"; "date"]; items := [] |}
           fuel_bill (VStr "admin")); reflexivity.
Defined.

Lemma delete_staff_then_get_witness :
  let st1 := after_delete "Staff" (staff_key "S1") store_with_ann
               staff_table_with_ann in
  serve store_with_ann (delete_staff "S1" (VStr "admin"))
    = (st1, [delete_item "Staff" (staff_key "S1")],
       (200, message "Staff deleted successfully")) /\
  serve st1 (get_staff "S1" (VStr "admin"))
    = (st1, [get_item "Staff" (staff_key "S1")], (200, VDict [])) /\
  serve st1 (delete_staff "S1" (VStr "admin"))
    = (st1, [delete_item "Staff" (staff_key "S1")],
       (200, message "Staff deleted successfully")).
Proof.
  apply (delete_staff_then_get store_with_ann staff_table_with_ann "S1"
           (VStr "admin")); reflexivity.
Defined.

Lemma delete_expense_then_get_witness :
  let st1 := after_delete "Expenses" (expense_key "E1" "2024-01-01")
               deployed {| schema := ["expenseID"; "date"]; items := [] |} in
  serve deployed (delete_expense "E1" "2024-01-01" (VStr "admin"))
    = (st1, [delete_item "Expenses" (expense_key "E1" "2024-01-01")],
       (200, message "Expense deleted successfully")) /\
  serve st1 (get_expense "E1" "2024-01-01" (VStr "admin"))
    = (st1, [get_item "Expenses" (expense_key "E1" "2024-01-01")],
       (200, VDict [])) /\
  serve st1 (delete_expense "E1" "2024-01-01" (VStr "admin"))
    = (st1, [delete_item "Expenses" (expense_key "E1" "2024-01-01")],
       (200, message "Expense deleted successfully")).
Proof.
  apply (delete_expense_then_get deployed
           {| schema := ["expenseID"; "date"]; items := [] |}
           "E1" "2024-01-01" (VStr "admin")); reflexivity.
Defined.

(** ** Shifts: what is created and what is asked for *)

Section ShiftKeys.

Lemma shift_key_not_in_item (s : MainRest.Shift) :
  dict_mem "shiftID" (MainRest.shift_item s) = false.
Proof. reflexivity. Qed.

(** A key schema that [create_shift] satisfies is not the schema of the
    key the other Shift routes send. *)
Lemma shift_key_invalid (sch : list string) (s : MainRest.Shift)
    (date : string) :
  NoDup sch ->
  forallb (fun a => dict_mem a (MainRest.shift_item s)) sch = true ->
  valid_key sch (shift_key "shift_id" date) = false.
Proof.
  intros Hnd Hput.
  destruct (valid_key sch (shift_key "shift_id" date)) eqn:Hv;
    [|reflexivity].
  exfalso. unfold valid_key in Hv. apply andb_true_iff in Hv.
  destruct Hv as [Hlen Hall]. apply Nat.eqb_eq in Hlen. cbn in Hlen.
  rewrite forallb_forall in Hall, Hput.
  assert (Hstart : forall a, In a sch -> a = "startDate").
  { intros a Ha. specialize (Hall a Ha). specialize (Hput a Ha).
    cbn in Hall. rewrite orb_false_r in Hall.
    apply orb_true_iff in Hall. destruct Hall as [H|H].
    - apply String.eqb_eq in H. subst a.
      rewrite shift_key_not_in_item in Hput. discriminate.
    - now apply String.eqb_eq in H. }
  destruct sch as [|a [|b [|c r]]]; try discriminate.
  assert (a = "startDate") by (apply Hstart; now left).
  assert (b = "startDate") by (apply Hstart; right; now left).
  subst. inversion Hnd as [|? ? Hin _]. apply Hin. now left.
Qed.

Variable st : store.
Variable t : table.

(** X13.  Whatever the key schema of the Shifts table (without a repeated
    attribute), if the store accepts a [create_shift], then on the store it
    leaves the get, update and delete routes of Shift are all rejected
    with 500: the item that is created has no [shiftID], the key that is
    asked for has one. *)
Theorem created_shifts_are_out_of_reach
    (s : MainRest.Shift) (id date : string) (request : UpdateStaffRequest)
    (token : pyval) (st1 : store) (calls : list call) (body : pyval) :
  find_table "Shifts" st = Some t ->
  NoDup (schema t) ->
  serve st (MainRest.create_shift s token) = (st1, calls, (200, body)) ->
  status_of (outcome_of exec st1 (get_shift id date token)) = 500 /\
  status_of (outcome_of exec st1 (update_shift id date request token)) = 500
  /\
  status_of (outcome_of exec st1 (delete_shift id date token)) = 500.
Proof.
  intros Ht Hnd Hcreate.
  unfold serve, MainRest.create_shift in Hcreate.
  rewrite run_delete in Hcreate. unfold exec in Hcreate at 1 2.
  rewrite Ht in Hcreate.
  destruct (forallb (fun a => dict_mem a (MainRest.shift_item s))
              (schema t)) eqn:Hput; [|discriminate Hcreate].
  cbn [fst snd] in Hcreate. injection Hcreate as <- _ _.
  pose proof (shift_key_invalid (schema t) s date Hnd Hput) as Hbad.
  assert (Hexec : forall c,
             (exists key, c = get_item "Shifts" (shift_key "shift_id" date)
                          \/ c = delete_item "Shifts"
                                   (shift_key "shift_id" date)
                          \/ c = update_call "Shifts"
                                   (shift_key "shift_id" date) key) ->
             exists e, exec
               (set_table "Shifts"
                  {| schema := schema t;
                     items := (remove t (MainRest.shift_item s) ++
                               [MainRest.shift_item s])%list |} st) c
               = (set_table "Shifts"
                    {| schema := schema t;
                       items := (remove t (MainRest.shift_item s) ++
                                 [MainRest.shift_item s])%list |} st,
                  Err e)).
  { intros c [key [->|[->| ->]]]; unfold exec, update_call;
      rewrite find_set_table; cbn [schema items]; rewrite Hbad;
      eexists; reflexivity. }
  unfold status_of, outcome_of. repeat apply conj.
  - rewrite run_get_shift. cbv zeta.
    destruct (Hexec (get_item "Shifts" (shift_key "shift_id" date)))
      as [e He]; [exists request; now left|].
    now rewrite He.
  - rewrite run_update_shift. cbv zeta.
    destruct (Hexec (update_call "Shifts" (shift_key "shift_id" date)
                       request)) as [e He];
      [exists request; right; now right|].
    now rewrite He.
  - unfold delete_shift. rewrite run_delete.
    destruct (Hexec (delete_item "Shifts" (shift_key "shift_id" date)))
      as [e He]; [exists request; right; now left|].
    fold (shift_key "shift_id" date). now rewrite He.
Qed.

End ShiftKeys.

Lemma created_shifts_are_out_of_reach_witness :
  serve staff_keyed_shifts (MainRest.create_shift night_shift (VStr "admin"))
    = (after_put "Shifts" (MainRest.shift_item night_shift)
         staff_keyed_shifts
         {| schema := ["staffID"; "startDate"]; items := [] |},
       [put_item "Shifts" (MainRest.shift_item night_shift)],
       (200, message "Shift created successfully")) /\
  status_of
    (outcome_of exec
       (after_put "Shifts" (MainRest.shift_item night_shift)
          staff_keyed_shifts
          {| schema := ["staffID"; "startDate"]; items := [] |})
       (get_shift "S1" "2024-01-01" (VStr "admin"))) = 500.
Proof.
  split; [reflexivity|].
  apply (created_shifts_are_out_of_reach staff_keyed_shifts
           {| schema := ["staffID"; "startDate"]; items := [] |}
           night_shift "S1" "2024-01-01" {| updates := [] |} (VStr "admin")
           _ [put_item "Shifts" (MainRest.shift_item night_shift)]
           (message "Shift created successfully")).
  - reflexivity.
  - repeat constructor; cbn; intuition discriminate.
  - reflexivity.
Defined.

(** ** What an update leaves in the store *)

(** X14.  Updating [hourlyRate] of a created Staff record answers 200 with
    the text that was sent, and leaves the attribute string-typed in the
    store: the number written by [create_staff] is replaced by [{S: text}],
    the other attributes stay as they were. *)
Theorem update_turns_rate_into_string
    (st : store) (t : table) (staff : Staff) (v : string) (token : pyval) :
  find_table "Staff" st = Some t ->
  schema t = ["staffID"] ->
  let st1 := after_put "Staff" (staff_item staff) st t in
  let request := {| updates := [("hourlyRate", v)] |} in
  exists st2,
    serve st1 (update_staff (staffID staff) request token)
      = (st2,
         [update_item "Staff" (staff_key (staffID staff))
            "SET hourlyRate = :hourlyRate" [(":hourlyRate", S_ v)]
            "UPDATED_NEW"],
         (200, VDict [("hourlyRate", VStr v)])) /\
    exec st2 (get_item "Staff" (staff_key (staffID staff)))
      = (st2, Ok [("Item", VDict (staff_item_with_rate staff (S_ v)))]).
Proof.
  intros Ht Hs. cbv zeta.
  set (key := staff_key (staffID staff)).
  set (st1 := after_put "Staff" (staff_item staff) st t).
  set (t1 := {| schema := schema t;
                items := (remove t (staff_item staff) ++
                          [staff_item staff])%list |}).
  assert (Ht1 : find_table "Staff" st1 = Some t1)
    by apply find_set_table.
  assert (Hv : valid_key (schema t1) key = true)
    by (cbn [schema t1]; rewrite Hs; reflexivity).
  assert (Hl : lookup t1 key = Some (staff_item staff)).
  { unfold lookup, t1, remove. cbn [schema items]. rewrite Hs.
    apply lookup_replaced; [intros a [<-|[]]; reflexivity|].
    apply has_staff_key. reflexivity. }
  set (new := staff_item_with_rate staff (S_ v)).
  set (t2 := {| schema := schema t1;
                items := (remove t1 key ++ [new])%list |}).
  exists (set_table "Staff" t2 st1). split.
  - unfold serve. rewrite run_update_staff. cbv zeta.
    change (update_call "Staff" (staff_key (staffID staff))
              {| updates := [("hourlyRate", v)] |})
      with (update_item "Staff" key "SET hourlyRate = :hourlyRate"
              [(":hourlyRate", S_ v)] "UPDATED_NEW").
    assert (He : exec st1
                   (update_item "Staff" key "SET hourlyRate = :hourlyRate"
                      [(":hourlyRate", S_ v)] "UPDATED_NEW")
                 = (set_table "Staff" t2 st1,
                    Ok [("Attributes", VDict [("hourlyRate", S_ v)])])).
    { unfold exec. rewrite Ht1, Hv.
      change (parse_set "SET hourlyRate = :hourlyRate")
        with (Some [("hourlyRate", ":hourlyRate")]).
      cbv beta iota.
      change (resolve [("hourlyRate", ":hourlyRate")]
                [(":hourlyRate", S_ v)])
        with (Some [("hourlyRate", S_ v)]).
      cbv beta iota. rewrite Hl. reflexivity. }
    rewrite He. reflexivity.
  - assert (Hl2 : lookup t2 key = Some new).
    { apply (lookup_replaced (schema t1) key key new (items t1)).
      - reflexivity.
      - cbn [schema t1]. rewrite Hs. apply has_staff_key. reflexivity. }
    unfold exec. rewrite find_set_table.
    change (schema t2) with (schema t1). rewrite Hv, Hl2. reflexivity.
Qed.

Lemma update_turns_rate_into_string_witness :
  let st1 := after_put "Staff" (staff_item ann) deployed
               {| schema := ["staffID"]; items := [] |} in
  let request := {| updates := [("hourlyRate", "16.0")] |} in
  exists st2,
    serve st1 (update_staff "S1" request (VStr "admin"))
      = (st2,
         [update_item "Staff" (staff_key "S1")
            "SET hourlyRate = :hourlyRate" [(":hourlyRate", S_ "16.0")]
            "UPDATED_NEW"],
         (200, VDict [("hourlyRate", VStr "16.0")])) /\
    exec st2 (get_item "Staff" (staff_key "S1"))
      = (st2, Ok [("Item", VDict (staff_item_with_rate ann (S_ "16.0")))]).
Proof.
  apply (update_turns_rate_into_string deployed
           {| schema := ["staffID"]; items := [] |} ann "16.0"
           (VStr "admin")); reflexivity.
Defined.

(** ** List routes *)

Section ListRouteProperties.

Context {V : Type}.
Variable deserialize : pyval -> result V.

Lemma out_set_fresh (k : string) (v : V) (d : list (string * V)) :
  ~ In k (map fst d) -> MainRest.out_set k v d = (d ++ [(k, v)])%list.
Proof.
  induction d as [|[k' v'] r IH]; cbn; intros Hk; [reflexivity|].
  destruct (String.eqb_spec k k') as [->|_].
  - exfalso. apply Hk. now left.
  - rewrite IH; [reflexivity|]. intros Hin. apply Hk. now right.
Qed.

Lemma deserialize_attrs_ok (f : pyval -> V) (its : dict)
    (acc : list (string * V)) :
  (forall kv, In kv its -> deserialize (snd kv) = Ok (f (snd kv))) ->
  NoDup (map fst acc ++ dict_keys its)%list ->
  MainRest.deserialize_attrs deserialize its acc
    = Ok (acc ++ map (fun kv => (fst kv, f (snd kv))) its)%list.
Proof.
  revert acc. induction its as [|[k v] r IH]; intros acc Hf Hnd.
  - cbn. now rewrite List.app_nil_r.
  - cbn [MainRest.deserialize_attrs].
    pose proof (Hf (k, v) (or_introl eq_refl)) as Hhead.
    cbn [snd] in Hhead. rewrite Hhead. cbn [rbind Ok].
    assert (Hk : ~ In k (map fst acc)).
    { cbn in Hnd. apply NoDup_remove_2 in Hnd. intros Hin. apply Hnd.
      apply in_or_app. now left. }
    rewrite (out_set_fresh k (f v) acc Hk), IH.
    + cbn [map fst snd]. now rewrite <- List.app_assoc.
    + intros kv Hkv. apply Hf. now right.
    + rewrite map_app. cbn [map fst]. rewrite <- List.app_assoc.
      exact Hnd.
Qed.

Lemma deserialize_attrs_err (its : dict) (acc : list (string * V))
    (k : string) (v : pyval) (e : exn) :
  In (k, v) its -> deserialize v = Err e ->
  exists e', MainRest.deserialize_attrs deserialize its acc = Err e'.
Proof.
  revert acc. induction its as [|[k' v'] r IH]; intros acc Hin He;
    [contradiction|].
  cbn [MainRest.deserialize_attrs].
  destruct (deserialize v') as [x|e'] eqn:Hv'.
  - destruct Hin as [[= -> ->]|Hin].
    + rewrite He in Hv'. discriminate.
    + cbn [rbind]. now apply IH.
  - exists e'. reflexivity.
Qed.

Lemma deserialize_items_ok (f : pyval -> V) (items : list dict) :
  (forall item, In item items ->
     NoDup (dict_keys item) /\
     forall kv, In kv item -> deserialize (snd kv) = Ok (f (snd kv))) ->
  MainRest.deserialize_items deserialize items
    = Ok (map (map (fun kv => (fst kv, f (snd kv)))) items).
Proof.
  induction items as [|item r IH]; intros H; [reflexivity|].
  cbn [MainRest.deserialize_items map].
  destruct (H item (or_introl eq_refl)) as [Hnd Hf].
  unfold MainRest.deserialize_dynamodb_item_for_list.
  rewrite (deserialize_attrs_ok f item [] Hf Hnd). cbn [rbind Ok].
  rewrite IH; [reflexivity|]. intros it Hit. apply H. now right.
Qed.

Lemma deserialize_items_err (items : list dict) (item : dict)
    (k : string) (v : pyval) (e : exn) :
  In item items -> In (k, v) item -> deserialize v = Err e ->
  exists e', MainRest.deserialize_items deserialize items = Err e'.
Proof.
  induction items as [|it r IH]; intros Hit Hkv He; [contradiction|].
  cbn [MainRest.deserialize_items].
  unfold MainRest.deserialize_dynamodb_item_for_list.
  destruct (MainRest.deserialize_attrs deserialize it []) as [x|e'] eqn:Hx.
  - destruct Hit as [->|Hit].
    + destruct (deserialize_attrs_err item [] k v e Hkv He) as [e' He'].
      rewrite He' in Hx. discriminate.
    + cbn [rbind]. destruct (IH Hit Hkv He) as [e' ->].
      exists e'. reflexivity.
  - exists e'. reflexivity.
Qed.

(** X15.  When every attribute value of every scanned item deserializes, a
    list route returns one object per item, in the order of the scan, each
    with the attribute names of its item in their order and the
    deserialized values; an empty scan gives the empty list. *)
Theorem list_route_maps_items (f : pyval -> V) (items : list dict)
    (scan : string -> result MainRest.scan_response) :
  (forall tn, scan tn = Ok {| MainRest.Items := Some items |}) ->
  (forall item, In item items ->
     NoDup (dict_keys item) /\
     forall kv, In kv item -> deserialize (snd kv) = Ok (f (snd kv))) ->
  let expected := map (map (fun kv => (fst kv, f (snd kv)))) items in
  MainRest.serve_list scan (MainRest.get_all_staff deserialize)
    = Ok expected /\
  MainRest.serve_list scan (MainRest.get_all_shifts deserialize)
    = Ok expected /\
  MainRest.serve_list scan (MainRest.get_all_expenses deserialize)
    = Ok expected.
Proof.
  intros Hscan Hitems. cbv zeta.
  unfold MainRest.serve_list, MainRest.get_all_staff,
    MainRest.get_all_shifts, MainRest.get_all_expenses.
  cbn [MainRest.scanned MainRest.body]. rewrite !Hscan.
  unfold MainRest.list_body. cbn [rbind Ok MainRest.Items].
  rewrite (deserialize_items_ok f items Hitems). cbn [rbind Ok].
  now destruct (map (map (fun kv => (fst kv, f (snd kv)))) items).
Qed.

(** X16.  One attribute value that does not deserialize, in any scanned
    item, makes the whole list route answer 500; so does a failure of the
    scan itself, with its text as detail. *)
Theorem list_route_fails_as_a_whole (items : list dict) (item : dict)
    (k : string) (v : pyval) (e : exn) :
  In item items -> In (k, v) item -> deserialize v = Err e ->
  (exists e',
     MainRest.list_body deserialize
       (Ok {| MainRest.Items := Some items |})
     = Err (HTTPException 500 (exn_str e') [])) /\
  (forall failure,
     MainRest.list_body deserialize (Err failure)
     = Err (HTTPException 500 (exn_str failure) [])).
Proof.
  intros Hit Hkv He. split; [|reflexivity].
  destruct (deserialize_items_err items item k v e Hit Hkv He) as [e' He'].
  exists e'. unfold MainRest.list_body. cbn [rbind Ok MainRest.Items].
  now rewrite He'.
Qed.

End ListRouteProperties.

Lemma list_route_maps_items_witness :
  MainRest.serve_list
    (fun _ => Ok {| MainRest.Items :=
                      Some [[("staffID", S_ "S1"); ("fullName", S_ "Ann")];
                            [("staffID", S_ "S2")]] |})
    (MainRest.get_all_staff
       (fun v => match v with
                 | VDict [(_, w)] => Ok w
                 | _ => Err (TypeError "Dynamodb type not supported")
                 end))
  = Ok [[("staffID", VStr "S1"); ("fullName", VStr "Ann")];
        [("staffID", VStr "S2")]].
Proof.
  apply (list_route_maps_items
           (fun v => match v with
                     | VDict [(_, w)] => Ok w
                     | _ => Err (TypeError "Dynamodb type not supported")
                     end)
           (fun v => match v with VDict [(_, w)] => w | _ => v end)
           [[("staffID", S_ "S1"); ("fullName", S_ "Ann")];
            [("staffID", S_ "S2")]]
           (fun _ => Ok {| MainRest.Items :=
                      Some [[("staffID", S_ "S1"); ("fullName", S_ "Ann")];
                            [("staffID", S_ "S2")]] |})).
  - reflexivity.
  - intros item [<-|[<-|[]]]; (split;
      [ repeat constructor; cbn; intuition discriminate
      | intros kv Hkv; cbn in Hkv;
        repeat (destruct Hkv as [<-|Hkv]; [reflexivity|]);
        contradiction ]).
Defined.

Lemma list_route_fails_as_a_whole_witness :
  exists e',
    MainRest.list_body deserialize_dynamodb_item
      (Ok {| MainRest.Items :=
               Some [[("staffID", S_ "S1")];
                     [("staffID", S_ "S2");
                      ("active", VDict [("BOOL", VStr "true")])]] |})
    = Err (HTTPException 500 (exn_str e') []).
Proof.
  apply (list_route_fails_as_a_whole deserialize_dynamodb_item
           [[("staffID", S_ "S1")];
            [("staffID", S_ "S2");
             ("active", VDict [("BOOL", VStr "true")])]]
           [("staffID", S_ "S2"); ("active", VDict [("BOOL", VStr "true")])]
           "active" (VDict [("BOOL", VStr "true")])
           (ValueError "Unsupported DynamoDB data type")).
  - right. left. reflexivity.
  - right. left. reflexivity.
  - reflexivity.
Defined.

(* ================================================================== *)
(** * Floats through the encoder and the decoder *)
(* ================================================================== *)

Lemma span_digits_app (a b : string) :
  all_digits a = true -> starts_nondigit b = true ->
  span_digits (a ++ b) = (a, b).
Proof.
  induction a as [|c r IH]; cbn [all_digits append span_digits]; intros Ha Hb.
  - destruct b as [|c r]; [reflexivity|]. cbn in Hb.
    cbn [span_digits]. now destruct (is_digit c).
  - apply andb_true_iff in Ha. destruct Ha as [Hc Hr].
    rewrite Hc, (IH Hr Hb). reflexivity.
Qed.

Lemma all_digits_uint (u : uint) :
  all_digits (NilEmpty.string_of_uint u) = true.
Proof. induction u; cbn; auto. Qed.

Lemma all_digits_zeros (n : nat) : all_digits (zeros n) = true.
Proof. induction n; cbn; auto. Qed.

Lemma all_digits_app (a b : string) :
  all_digits (a ++ b) = all_digits a && all_digits b.
Proof.
  induction a as [|c r IH]; cbn; [reflexivity|].
  now rewrite IH, andb_assoc.
Qed.

Lemma str_length_app (a b : string) :
  String.length (a ++ b) = (String.length a + String.length b)%nat.
Proof. induction a; cbn; auto. Qed.

Lemma str_length_zeros (n : nat) : String.length (zeros n) = n.
Proof. induction n; cbn; auto. Qed.

Lemma str_app_assoc (a b c : string) : (a ++ b) ++ c = a ++ (b ++ c).
Proof. induction a; cbn; congruence. Qed.

Lemma str_app_nil_r (a : string) : a ++ "" = a.
Proof. induction a; cbn; congruence. Qed.

(** substring *)
Lemma substring_0_0 (s : string) : substring 0 0 s = "".
Proof. now destruct s. Qed.

Lemma substring_full (s : string) : substring 0 (String.length s) s = s.
Proof. induction s as [|c r IH]; cbn; [reflexivity|]. now rewrite IH. Qed.

Lemma substring_split (n : nat) (s : string) :
  (n <= String.length s)%nat ->
  substring 0 n s ++ substring n (String.length s - n) s = s.
Proof.
  revert s. induction n as [|n IH]; intros s Hn.
  - now rewrite Nat.sub_0_r, substring_0_0, substring_full.
  - destruct s as [|c r]; [cbn in Hn; lia|].
    cbn in Hn. cbn [substring String.length Nat.sub append].
    f_equal. apply IH. lia.
Qed.

Lemma substring_all_digits (n m : nat) (s : string) :
  all_digits s = true -> all_digits (substring n m s) = true.
Proof.
  revert n m. induction s as [|c r IH]; intros n m H.
  - destruct n, m; reflexivity.
  - cbn in H. apply andb_true_iff in H. destruct H as [Hc Hr].
    destruct n as [|n]; [destruct m as [|m]|]; cbn; auto.
    now rewrite Hc, IH.
Qed.

Lemma substring_length (n m : nat) (s : string) :
  (n + m <= String.length s)%nat ->
  String.length (substring n m s) = m.
Proof.
  revert n m. induction s as [|c r IH]; intros n m H; cbn in H.
  - destruct n, m; cbn; lia.
  - destruct n as [|n]; [destruct m as [|m]|]; cbn; auto.
    + rewrite IH; lia.
    + apply IH. lia.
Qed.

(** contains_char *)
Lemma contains_char_app (c : ascii) (a b : string) :
  contains_char c (a ++ b) = contains_char c a || contains_char c b.
Proof.
  induction a as [|x r IH]; cbn; [reflexivity|].
  now rewrite IH, orb_assoc.
Qed.

Lemma all_digits_no_char (c : ascii) (s : string) :
  is_digit c = false -> all_digits s = true -> contains_char c s = false.
Proof.
  intros Hc. induction s as [|x r IH]; cbn; [reflexivity|].
  intros H. apply andb_true_iff in H. destruct H as [Hx Hr].
  rewrite (IH Hr), orb_false_r. apply Ascii.eqb_neq. intros ->.
  congruence.
Qed.

(** parsing digit strings *)
Lemma uint_of_string_zeros (k : nat) (s : string) :
  NilEmpty.uint_of_string (zeros k ++ s)
  = option_map (Nat.iter k D0) (NilEmpty.uint_of_string s).
Proof.
  induction k as [|k IH]; cbn [zeros append Nat.iter].
  - now destruct (NilEmpty.uint_of_string s).
  - cbn [NilEmpty.uint_of_string]. rewrite IH.
    now destruct (NilEmpty.uint_of_string s).
Qed.

Lemma of_uint_iter_D0_head (k : nat) (u : uint) :
  N.of_uint (Nat.iter k D0 u) = N.of_uint u.
Proof. induction k; cbn; auto. Qed.

Lemma float_of_str_eq (s : string) :
  float_of_str s = let (neg, s1) := sign_of s in number_of neg s1.
Proof. reflexivity. Qed.

Lemma sign_of_digit (c : ascii) (r : string) :
  is_digit c = true -> sign_of (String c r) = (false, String c r).
Proof.
  intros H. destruct c as [[] [] [] [] [] [] [] []];
    try discriminate H; reflexivity.
Qed.

Lemma lower_digit_start (c : ascii) (r : string) :
  is_digit c = true ->
  String.eqb (lower (String c r)) "inf" = false /\
  String.eqb (lower (String c r)) "infinity" = false /\
  String.eqb (lower (String c r)) "nan" = false.
Proof.
  intros H. destruct c as [[] [] [] [] [] [] [] []];
    try discriminate H; repeat split; reflexivity.
Qed.

Lemma number_of_point (neg : bool) (c : ascii) (ip' fp tail : string)
    (x : Z) :
  is_digit c = true -> all_digits ip' = true -> all_digits fp = true ->
  exp_tail tail x ->
  number_of neg (String c ip' ++ String "." (fp ++ tail))
  = match NilEmpty.uint_of_string (String c ip' ++ fp) with
    | Some ds =>
        let (m, e) := float_norm (N.of_uint ds)
                        (x - Z.of_nat (String.length fp)) in
        Some (FDec neg m e)
    | None => None
    end.
Proof.
  intros Hc Hip Hfp Htail. unfold number_of.
  cbn [append].
  destruct (lower_digit_start c (ip' ++ String "." (fp ++ tail)) Hc)
    as (E1 & E2 & E3).
  cbv zeta. rewrite E1, E2, E3. cbn [orb].
  change (String c (ip' ++ String "." (fp ++ tail)))
    with (String c ip' ++ String "." (fp ++ tail)).
  rewrite (span_digits_app (String c ip') (String "." (fp ++ tail)));
    [|cbn; now rewrite Hc, Hip|reflexivity].
  assert (Hst : starts_nondigit tail = true).
  { destruct Htail as [[-> _]|(t & -> & _)]; reflexivity. }
  rewrite (span_digits_app fp tail Hfp Hst).
  cbn [String.eqb andb].
  destruct Htail as [[-> ->]|(t & -> & Ht)].
  - reflexivity.
  - change (Ascii.eqb (lower_ascii "e") "e") with true. cbv iota.
    rewrite Ht. reflexivity.
Qed.

Lemma N_to_uint_nonnil (m : N) : N.to_uint m <> Nil.
Proof.
  destruct m as [|p]; cbn; [discriminate|].
  apply DecimalPos.Unsigned.to_uint_nonnil.
Qed.

Lemma digits_of_eq (m : N) :
  digits_of m = NilEmpty.string_of_uint (N.to_uint m).
Proof.
  unfold digits_of, NilZero.string_of_uint.
  pose proof (N_to_uint_nonnil m). now destruct (N.to_uint m).
Qed.

Lemma digits_of_all (m : N) : all_digits (digits_of m) = true.
Proof. rewrite digits_of_eq. apply all_digits_uint. Qed.

Lemma digits_of_cons (m : N) :
  exists c r, digits_of m = String c r /\ is_digit c = true /\
              all_digits r = true.
Proof.
  pose proof (digits_of_all m) as H. rewrite digits_of_eq in *.
  pose proof (N_to_uint_nonnil m) as Hn.
  destruct (N.to_uint m); try contradiction; cbn in *;
    eexists; eexists; (split; [reflexivity|split; [reflexivity|exact H]]).
Qed.

Lemma digits_of_parse (m : N) :
  NilEmpty.uint_of_string (digits_of m) = Some (N.to_uint m).
Proof. rewrite digits_of_eq. apply NilEmpty.usu. Qed.

Lemma of_uint_D0 (u : uint) : N.of_uint (D0 u) = N.of_uint u.
Proof. reflexivity. Qed.

Lemma Z_of_uint_to_uint (n : N) : Z.of_uint (N.to_uint n) = Z.of_N n.
Proof.
  unfold Z.of_uint. f_equal. apply DecimalN.Unsigned.of_to.
Qed.

Lemma int_of_str_exp_str (x : Z) : int_of_str (exp_str x) = Some x.
Proof.
  unfold exp_str. fold (digits_of (Z.abs_N x)).
  destruct (digits_of_cons (Z.abs_N x)) as (c & r & Hd & Hc & Hr).
  assert (Hp : NilEmpty.uint_of_string (digits_of (Z.abs_N x))
               = Some (N.to_uint (Z.abs_N x))) by apply digits_of_parse.
  set (pad := if Nat.ltb (String.length (digits_of (Z.abs_N x))) 2
              then "0" ++ digits_of (Z.abs_N x)
              else digits_of (Z.abs_N x)).
  assert (Hpad : exists u, NilZero.uint_of_string pad = Some u /\
                           Z.of_uint u = Z.of_N (Z.abs_N x)).
  { unfold pad.
    destruct (Nat.ltb (String.length (digits_of (Z.abs_N x))) 2).
    - exists (D0 (N.to_uint (Z.abs_N x))). split.
      + cbn [append NilZero.uint_of_string NilEmpty.uint_of_string].
        now rewrite Hp.
      + change (Z.of_uint (D0 (N.to_uint (Z.abs_N x))))
          with (Z.of_uint (N.to_uint (Z.abs_N x))).
        apply Z_of_uint_to_uint.
    - exists (N.to_uint (Z.abs_N x)). split.
      + rewrite Hd in *. cbn [NilZero.uint_of_string]. exact Hp.
      + apply Z_of_uint_to_uint. }
  destruct Hpad as (u & Hu & Hval).
  destruct (Z.ltb_spec x 0) as [Hneg|Hpos].
  - cbn [append]. unfold int_of_str.
    change (match String "-" pad with
            | String "+" r0 =>
                option_map Z.of_uint (NilZero.uint_of_string r0)
            | _ => option_map Z.of_int
                     (NilZero.int_of_string (String "-" pad))
            end)
      with (option_map Z.of_int (NilZero.int_of_string (String "-" pad))).
    cbn [NilZero.int_of_string]. change (Ascii.eqb "-" "-") with true.
    cbv iota. rewrite Hu. cbn [option_map Z.of_int]. rewrite Hval.
    f_equal. rewrite N2Z.inj_abs_N. lia.
  - cbn [append]. unfold int_of_str.
    change (match String "+" pad with
            | String "+" r0 =>
                option_map Z.of_uint (NilZero.uint_of_string r0)
            | _ => option_map Z.of_int
                     (NilZero.int_of_string (String "+" pad))
            end)
      with (option_map Z.of_uint (NilZero.uint_of_string pad)).
    rewrite Hu. cbn [option_map]. rewrite Hval.
    f_equal. rewrite N2Z.inj_abs_N. lia.
Qed.

Lemma lnztail_eq (l : list digits) :
  lnztail l = let (r, n) := laux (List.rev l) in (List.rev r, n).
Proof. reflexivity. Qed.

Lemma laux_zeros (j : nat) (x : list digits) :
  laux (repeat d0 j ++ x)%list = let (r, n) := laux x in (r, (j + n)%nat).
Proof.
  induction j as [|j IH]; cbn [repeat List.app].
  - now destruct (laux x).
  - cbn [laux]. fold laux. rewrite IH. now destruct (laux x).
Qed.

Lemma lnztail_app_zeros (l : list digits) (j : nat) :
  lnztail (l ++ repeat d0 j)%list
  = let (r, n) := lnztail l in (r, (j + n)%nat).
Proof.
  rewrite !lnztail_eq, List.rev_app_distr, List.rev_repeat, laux_zeros.
  now destruct (laux (List.rev l)).
Qed.

Lemma nztail_lnztail (d : uint) :
  Decimal.nztail d
  = let (r, n) := lnztail (to_list d) in (of_list r, n).
Proof.
  pose proof (nztail_spec d) as H.
  destruct (Decimal.nztail d) as [r n].
  destruct (lnztail (to_list d)) as [r' n'].
  destruct H as [<- <-]. now rewrite of_list_to_list.
Qed.

Lemma nztail_app_zeros (u : uint) (j : nat) :
  Decimal.nztail (of_list (to_list u ++ repeat d0 j)%list)
  = let (r, n) := Decimal.nztail u in (r, (j + n)%nat).
Proof.
  rewrite !nztail_lnztail, to_list_of_list, lnztail_app_zeros.
  now destruct (lnztail (to_list u)).
Qed.

Lemma parse_app_zeros (s : string) (u : uint) (j : nat) :
  NilEmpty.uint_of_string s = Some u ->
  NilEmpty.uint_of_string (s ++ zeros j)
  = Some (of_list (to_list u ++ repeat d0 j)%list).
Proof.
  revert u. induction s as [|c r IH]; intros u Hu.
  - cbn in Hu. injection Hu as <-. cbn [append to_list List.app].
    induction j as [|j IHj]; [reflexivity|].
    cbn [zeros NilEmpty.uint_of_string repeat of_list]. now rewrite IHj.
  - cbn [append NilEmpty.uint_of_string] in *.
    destruct (NilEmpty.uint_of_string r) as [u0|] eqn:Hr;
      [|discriminate].
    rewrite (IH u0 eq_refl).
    apply uint_of_char_spec in Hu.
    destruct Hu as [[-> ->]|[[-> ->]|[[-> ->]|[[-> ->]|[[-> ->]|
                   [[-> ->]|[[-> ->]|[[-> ->]|[[-> ->]|[-> ->]]]]]]]]]];
      reflexivity.
Qed.

(** The digits of a positive number start with a digit other than 0. *)
Lemma to_uint_head (m : N) :
  m <> 0%N ->
  exists h t, to_list (N.to_uint m) = h :: t /\ h <> d0.
Proof.
  intros Hm. set (u := N.to_uint m).
  assert (Hun : unorm u = u).
  { unfold u. rewrite <- (DecimalN.Unsigned.to_of (N.to_uint m)).
    now rewrite DecimalN.Unsigned.of_to. }
  assert (Hz : u <> zero).
  { unfold u. intros E. apply Hm.
    rewrite <- (DecimalN.Unsigned.of_to m), E. reflexivity. }
  assert (Hnz : nzhead u = u).
  { unfold unorm in Hun. destruct (nzhead u) eqn:E; try exact Hun.
    now contradiction Hz. }
  destruct u as [|u'|u'|u'|u'|u'|u'|u'|u'|u'|u'] eqn:Eu;
    try (cbn; eexists; eexists; split; [reflexivity|discriminate]).
  - now contradiction (N_to_uint_nonnil m).
  - exfalso. exact (nzhead_nonzero _ _ Hnz).
Qed.

Lemma unorm_head (X : uint) (h : digits) (t : list digits) :
  to_list X = h :: t -> h <> d0 -> unorm X = X.
Proof.
  intros HX Hh. apply to_list_inj. rewrite unorm_spec, HX.
  unfold lunorm. now rewrite (lnzhead_head_nd0 h t Hh).
Qed.

(** Normalising a normal mantissa followed by [j] zeros. *)
Lemma float_norm_app_zeros (m : N) (e E : Z) (j : nat) (X : uint) :
  m <> 0%N ->
  float_norm m e = (m, e) ->
  NilEmpty.uint_of_string (digits_of m ++ zeros j) = Some X ->
  float_norm (N.of_uint X) E = (m, E + Z.of_nat j).
Proof.
  intros Hm Hnorm HX.
  rewrite (parse_app_zeros _ _ j (digits_of_parse m)) in HX.
  injection HX as <-.
  destruct (to_uint_head m Hm) as (h & t & Hu & Hh).
  set (X := of_list (to_list (N.to_uint m) ++ repeat d0 j)%list).
  assert (HXl : to_list X = h :: (t ++ repeat d0 j)%list).
  { unfold X. now rewrite to_list_of_list, Hu. }
  assert (Hun : unorm X = X) by exact (unorm_head X h _ HXl Hh).
  assert (Hto : N.to_uint (N.of_uint X) = X).
  { now rewrite DecimalN.Unsigned.to_of. }
  assert (Hnz : N.of_uint X <> 0%N).
  { intros E0. rewrite E0 in Hto. cbn in Hto. rewrite <- Hto in HXl.
    cbn in HXl. injection HXl as <- _. now apply Hh. }
  unfold float_norm in *.
  destruct (N.of_uint X) as [|q] eqn:Eq; [now contradiction Hnz|].
  rewrite Hto. unfold X. rewrite nztail_app_zeros.
  destruct m as [|p]; [now contradiction Hm|].
  destruct (Decimal.nztail (N.to_uint (N.pos p))) as [r n].
  injection Hnorm as Hr Hn.
  assert (n = O) by lia. subst n.
  rewrite Hr. f_equal. lia.
Qed.

Lemma float_repr_eq (neg : bool) (m : N) (e : Z) :
  float_repr (FDec neg m e)
  = let (m', e') := float_norm m e in
    (if neg then "-" else "") ++ repr_body m' e'.
Proof. unfold float_repr. now destruct (float_norm m e). Qed.

Lemma reads_as_number (neg : bool) (body : string) (m : N) (e : Z) :
  reads_as body m e -> number_of neg body = Some (FDec neg m e).
Proof.
  intros (c & ip' & fp & tail & x & ds & -> & Hc & Hip & Hfp & Ht & Hds & Hn).
  rewrite (number_of_point neg c ip' fp tail x Hc Hip Hfp Ht), Hds.
  now rewrite Hn.
Qed.

Lemma reads_as_starts (body : string) (m : N) (e : Z) :
  reads_as body m e ->
  exists c r, body = String c r /\ is_digit c = true.
Proof.
  intros (c & ip' & fp & tail & x & ds & -> & Hc & _).
  exists c, (ip' ++ String "." (fp ++ tail)). now split.
Qed.

Lemma zeros_snoc (j : nat) : zeros j ++ "0" = zeros (S j).
Proof. induction j as [|j IH]; cbn; [reflexivity|]. now rewrite IH. Qed.

Lemma exp_str_no_point (x : Z) : contains_char "." (exp_str x) = false.
Proof.
  unfold exp_str. fold (digits_of (Z.abs_N x)).
  rewrite contains_char_app.
  assert (H : contains_char "." (digits_of (Z.abs_N x)) = false)
    by (apply all_digits_no_char; [reflexivity|apply digits_of_all]).
  destruct (x <? 0);
    destruct (Nat.ltb (String.length (digits_of (Z.abs_N x))) 2);
    cbn; now rewrite H.
Qed.

Section Body.

Variable m : N.
Variable e : Z.
Hypothesis Hnorm : float_norm m e = (m, e).


Lemma parse_D : NilEmpty.uint_of_string (digits_of m) = Some (N.to_uint m).
Proof. apply digits_of_parse. Qed.

Lemma norm_D (E : Z) :
  E = e -> float_norm (N.of_uint (N.to_uint m)) E = (m, e).
Proof. intros ->. now rewrite DecimalN.Unsigned.of_to. Qed.

(** Fixed notation, the point before the digits. *)
Lemma body_small :
  (decpt_of m e) <= 0 ->
  reads_as ("0." ++ zeros (Z.to_nat (- (decpt_of m e))) ++ (digits_of m)) m e.
Proof.
  intros Hd. set (k := Z.to_nat (- (decpt_of m e))).
  exists "0"%char, "", (zeros k ++ (digits_of m)), "", 0,
    (D0 (Nat.iter k D0 (N.to_uint m))).
  split; [cbn; now rewrite str_app_nil_r|].
  split; [reflexivity|]. split; [reflexivity|].
  split; [rewrite all_digits_app, all_digits_zeros; apply digits_of_all|].
  split; [left; now split|]. split.
  - cbn [append NilEmpty.uint_of_string].
    rewrite uint_of_string_zeros, parse_D. reflexivity.
  - rewrite of_uint_D0, of_uint_iter_D0_head.
    apply norm_D. rewrite str_length_app, str_length_zeros.
    fold (ndigits_of m). unfold k, decpt_of, ndigits_of in *. lia.
Qed.

(** Fixed notation, the point after the digits. *)
Lemma body_large :
  Z.of_nat (ndigits_of m) <= (decpt_of m e) ->
  reads_as ((digits_of m) ++ zeros (Z.to_nat (decpt_of m e) - (ndigits_of m)) ++ ".0") m e.
Proof.
  intros Hd. set (j := (Z.to_nat (decpt_of m e) - (ndigits_of m))%nat).
  assert (Hj : Z.of_nat j = e) by (unfold j, decpt_of, ndigits_of in *; lia).
  destruct (digits_of_cons m) as (c & r & HD & Hc & Hr).
  assert (Hparse : exists ds,
             NilEmpty.uint_of_string (String c (r ++ zeros j) ++ "0")
               = Some ds /\
             float_norm (N.of_uint ds) (0 - 1) = (m, e)).
  { change (String c (r ++ zeros j) ++ "0")
      with (String c ((r ++ zeros j) ++ "0")).
    rewrite str_app_assoc, zeros_snoc.
    change (String c (r ++ zeros (S j))) with (String c r ++ zeros (S j)).
    rewrite <- HD.
    destruct (N.eq_dec m 0) as [Hm|Hm].
    - subst m. unfold digits_of. cbn [N.to_uint].
      exists (D0 (Nat.iter (S j) D0 Nil)). split.
      + change (NilZero.string_of_uint zero) with (String "0" "").
        cbn [append NilEmpty.uint_of_string].
        rewrite <- (str_app_nil_r (zeros (S j))).
        now rewrite uint_of_string_zeros.
      + cbn in Hnorm. injection Hnorm as <-.
        rewrite of_uint_D0, of_uint_iter_D0_head. reflexivity.
    - destruct (NilEmpty.uint_of_string ((digits_of m) ++ zeros (S j))) as [X|] eqn:EX.
      + exists X. split; [reflexivity|].
        rewrite (float_norm_app_zeros m e (0 - 1) (S j) X Hm Hnorm EX).
        f_equal. lia.
      + rewrite (parse_app_zeros _ _ (S j) (digits_of_parse m)) in EX.
        discriminate. }
  destruct Hparse as (ds & Hds & Hn).
  exists c, (r ++ zeros j), "0", "", 0, ds.
  split; [rewrite HD; cbn; now rewrite str_app_assoc|].
  split; [exact Hc|].
  split; [rewrite all_digits_app, Hr; apply all_digits_zeros|].
  split; [reflexivity|]. split; [left; now split|].
  split; [exact Hds|exact Hn].
Qed.

(** Fixed notation, the point inside the digits. *)
Lemma body_middle :
  0 < (decpt_of m e) -> (decpt_of m e) < Z.of_nat (ndigits_of m) ->
  reads_as (substring 0 (Z.to_nat (decpt_of m e)) (digits_of m) ++ "." ++
            substring (Z.to_nat (decpt_of m e)) ((ndigits_of m) - Z.to_nat (decpt_of m e)) (digits_of m)) m e.
Proof.
  intros Hlo Hhi. set (p := Z.to_nat (decpt_of m e)).
  assert (Hp : (1 <= p < (ndigits_of m))%nat) by (unfold p; lia).
  destruct (digits_of_cons m) as (c & r & HD & Hc & Hr).
  assert (Hall : all_digits (digits_of m) = true) by apply digits_of_all.
  destruct p as [|p'] eqn:Ep; [lia|].
  exists c, (substring 0 p' r), (substring (S p') ((ndigits_of m) - S p') (digits_of m)), "", 0,
    (N.to_uint m).
  split.
  { rewrite HD at 1. cbn [substring append].
    now rewrite str_app_nil_r. }
  split; [exact Hc|].
  split; [now apply substring_all_digits|].
  split; [now apply substring_all_digits|].
  split; [left; now split|]. split.
  - rewrite <- parse_D. f_equal.
    assert (Hle : (S p' <= String.length (digits_of m))%nat) by (fold (ndigits_of m); lia).
    pose proof (substring_split (S p') (digits_of m) Hle) as Hsp. fold (ndigits_of m) in Hsp.
    rewrite HD in Hsp at 1.
    change (substring 0 (S p') (String c r))
      with (String c (substring 0 p' r)) in Hsp.
    exact Hsp.
  - apply norm_D. rewrite substring_length by (fold (ndigits_of m); lia).
    unfold decpt_of, ndigits_of in *. lia.
Qed.

(** Exponent notation with more than one digit. *)
Lemma body_exponent :
  (1 < (ndigits_of m))%nat ->
  reads_as (substring 0 1 (digits_of m) ++ ("." ++ substring 1 ((ndigits_of m) - 1) (digits_of m)) ++
            "e" ++ exp_str ((decpt_of m e) - 1)) m e.
Proof.
  intros Hnd.
  destruct (digits_of_cons m) as (c & r & HD & Hc & Hr).
  assert (Hlen : (ndigits_of m) = S (String.length r)) by (unfold ndigits_of; now rewrite HD).
  exists c, "", r, (String "e" (exp_str ((decpt_of m e) - 1))), ((decpt_of m e) - 1),
    (N.to_uint m).
  split.
  { rewrite HD. cbn [substring]. rewrite substring_0_0.
    replace ((ndigits_of m) - 1)%nat with (String.length r) by lia.
    rewrite substring_full. reflexivity. }
  split; [exact Hc|]. split; [reflexivity|]. split; [exact Hr|].
  split; [right; eexists; split; [reflexivity|apply int_of_str_exp_str]|].
  split.
  - cbn [append]. rewrite <- HD. apply parse_D.
  - apply norm_D. unfold decpt_of, ndigits_of in *. lia.
Qed.

(** The body of a [repr] with a point reads as the float. *)
Lemma repr_body_reads :
  contains_char "." (repr_body m e) = true -> reads_as (repr_body m e) m e.
Proof.
  unfold repr_body. fold (digits_of m). fold (ndigits_of m). fold (decpt_of m e).
  cbv zeta.
  destruct (((decpt_of m e) <=? -4) || (16 <? (decpt_of m e))) eqn:Eexp.
  - destruct (Nat.ltb_spec 1 (ndigits_of m)) as [Hnd|Hnd].
    + intros _. now apply body_exponent.
    + intros Hpt. exfalso.
      rewrite !contains_char_app in Hpt.
      rewrite exp_str_no_point in Hpt.
      rewrite (all_digits_no_char "." (substring 0 1 (digits_of m))) in Hpt;
        [discriminate|reflexivity|].
      apply substring_all_digits, digits_of_all.
  - apply orb_false_iff in Eexp. destruct Eexp as [E1 E2].
    destruct (Z.leb_spec (decpt_of m e) 0) as [Hd0|Hd0].
    + intros _. now apply body_small.
    + destruct (Z.leb_spec (Z.of_nat (ndigits_of m)) (decpt_of m e)) as [Hd1|Hd1].
      * intros _. now apply body_large.
      * intros _. now apply body_middle.
Qed.

End Body.

Lemma uint_of_string_with_e (s : string) :
  contains_char "e" s = true -> NilEmpty.uint_of_string s = None.
Proof.
  induction s as [|a r IH]; cbn [contains_char NilEmpty.uint_of_string];
    [discriminate|].
  destruct (Ascii.eqb_spec a "e") as [->|Ha]; cbn [orb].
  - intros _. now destruct (NilEmpty.uint_of_string r).
  - intros H. now rewrite (IH H).
Qed.

Lemma nz_uint_of_string_with_e (s : string) :
  contains_char "e" s = true -> NilZero.uint_of_string s = None.
Proof.
  intros H. unfold NilZero.uint_of_string.
  destruct s; [reflexivity|]. now apply uint_of_string_with_e.
Qed.

Lemma int_of_str_with_e (s : string) :
  contains_char "e" s = true -> int_of_str s = None.
Proof.
  intros H. destruct s as [|a r]; [discriminate|].
  destruct (Ascii.eqb_spec a "+") as [->|Hp].
  - cbn in H. unfold int_of_str.
    change (match String "+" r with
            | String "+" r0 =>
                option_map Z.of_uint (NilZero.uint_of_string r0)
            | _ => option_map Z.of_int
                     (NilZero.int_of_string (String "+" r))
            end)
      with (option_map Z.of_uint (NilZero.uint_of_string r)).
    now rewrite (nz_uint_of_string_with_e r H).
  - assert (E : int_of_str (String a r)
                = option_map Z.of_int
                    (NilZero.int_of_string (String a r))).
    { apply int_of_str_unsigned. intros r' [= -> _]. now apply Hp. }
    rewrite E. unfold NilZero.int_of_string.
    destruct (Ascii.eqb_spec a "-") as [->|Hm].
    + cbn in H. now rewrite (nz_uint_of_string_with_e r H).
    + now rewrite (nz_uint_of_string_with_e (String a r) H).
Qed.

Lemma repr_body_no_point_has_e (m : N) (e : Z) :
  contains_char "." (repr_body m e) = false ->
  contains_char "e" (repr_body m e) = true.
Proof.
  unfold repr_body. cbv zeta.
  destruct ((_ <=? -4) || (16 <? _)).
  - intros _. rewrite !contains_char_app.
    change (contains_char "e" ("e" ++ ?x)) with true.
    cbn [append contains_char]. change (Ascii.eqb "e" "e") with true.
    cbn [orb]. now rewrite !orb_true_r.
  - destruct (_ <=? 0); [discriminate|].
    destruct (_ <=? _).
    + rewrite !contains_char_app. cbn. now rewrite !orb_true_r.
    + rewrite !contains_char_app. cbn. now rewrite orb_true_r.
Qed.

(** X17.  A float written as [{N: str(x)}], as the create routes write it,
    decodes back to itself exactly when its text has a decimal point; when
    the text has none (exponent notation with one digit, [inf], [nan]) the
    decoder raises [ValueError]. *)
Theorem float_round_trip_iff_point (x : pyfloat) :
  float_normal x ->
  (deserialize_dynamodb_item (N_ (py_str (VFloat x))) = Ok (VFloat x) <->
   contains_char "." (float_repr x) = true) /\
  (contains_char "." (float_repr x) = false ->
   exists msg,
     deserialize_dynamodb_item (N_ (py_str (VFloat x)))
       = Err (ValueError msg)).
Proof.
  intros Hx.
  change (py_str (VFloat x)) with (float_repr x).
  rewrite decode_N.
  destruct x as [|neg|neg m e].
  - split; [split; discriminate|]. intros _. eexists. reflexivity.
  - split; [split; destruct neg; discriminate|].
    intros _. destruct neg; eexists; reflexivity.
  - cbn [float_normal] in Hx.
    rewrite float_repr_eq, Hx.
    destruct (contains_char "." ((if neg then "-" else "") ++ repr_body m e))
      eqn:Hpt.
    + split; [split; [reflexivity|intros _]|discriminate].
      assert (Hb : contains_char "." (repr_body m e) = true).
      { rewrite contains_char_app in Hpt. now destruct neg. }
      pose proof (repr_body_reads m e Hx Hb) as Hreads.
      unfold py_float. rewrite float_of_str_eq.
      assert (Hs : sign_of ((if neg then "-" else "") ++ repr_body m e)
                   = (neg, repr_body m e)).
      { destruct neg; [reflexivity|].
        destruct (reads_as_starts _ _ _ Hreads) as (c & r & -> & Hc).
        now apply sign_of_digit. }
      rewrite Hs. now rewrite (reads_as_number neg _ m e Hreads).
    + split; [split; [|discriminate]|].
      * unfold py_int. destruct (int_of_str _); discriminate.
      * intros _. unfold py_int.
        rewrite int_of_str_with_e; [eexists; reflexivity|].
        rewrite contains_char_app. apply orb_true_iff. right.
        apply repr_body_no_point_has_e.
        rewrite contains_char_app in Hpt.
        now apply orb_false_iff in Hpt.
Qed.

Lemma float_round_trip_iff_point_witness :
  (deserialize_dynamodb_item (N_ (py_str (VFloat (FDec false 155 (-1)))))
     = Ok (VFloat (FDec false 155 (-1))) <->
   contains_char "." (float_repr (FDec false 155 (-1))) = true) /\
  (contains_char "." (float_repr (FDec false 155 (-1))) = false ->
   exists msg,
     deserialize_dynamodb_item (N_ (py_str (VFloat (FDec false 155 (-1)))))
       = Err (ValueError msg)).
Proof.
  apply (float_round_trip_iff_point (FDec false 155 (-1))). reflexivity.
Defined.

(** ** Integers, and a negative lifetime *)

(** X18.  An int of either sign and of at most 4300 digits, the most that
    CPython converts between int and str, is written by the encoder as
    [{N: str(n)}] and decodes to the same int, not to a float. *)
Theorem int_round_trip (z : Z) :
  within_max_str_digits z ->
  typed_value (VInt z) = N_ (int_str z) /\
  deserialize_dynamodb_item (typed_value (VInt z)) = Ok (VInt z).
Proof. intros _. split; [reflexivity|apply round_trip_int]. Qed.

Lemma int_round_trip_witness :
  typed_value (VInt (-12345678901234567890123)) =
    N_ (int_str (-12345678901234567890123)) /\
  deserialize_dynamodb_item (typed_value (VInt (-12345678901234567890123)))
    = Ok (VInt (-12345678901234567890123)).
Proof.
  apply (int_round_trip (-12345678901234567890123)).
  vm_compute. reflexivity.
Defined.



(** ** The routes against every store, on the reference store *)

Lemma created_items_are_never_returned_witness :
  http_response
    (outcome_of exec store_with_ann (get_staff "S1" (VStr "admin")))
  = (500, VDict [("detail", VStr "Unsupported DynamoDB data type")]).
Proof.
  destruct (created_items_are_never_returned exec store_with_ann ann
              night_shift fuel_bill "S1" "2024-01-01" (VStr "admin"))
    as [Hstaff _].
  apply (Hstaff store_with_ann [("Item", VDict ann_item)]); reflexivity.
Defined.

Lemma get_without_item_is_empty_witness :
  http_response
    (outcome_of exec store_with_ann (get_staff "unknown" (VStr "admin")))
  = (200, VDict []).
Proof.
  destruct (get_without_item_is_empty exec store_with_ann "unknown"
              "2024-01-01" (VStr "admin")) as [Hstaff _].
  apply (Hstaff store_with_ann []); reflexivity.
Defined.

Lemma update_answers_what_was_sent_witness :
  http_response
    (outcome_of exec store_with_ann
       (update_staff "S1" {| updates := [("jobTitle", "Lead")] |}
          (VStr "admin")))
  = (200, VDict [("jobTitle", VStr "Lead")]).
Proof.
  destruct (update_answers_what_was_sent exec store_with_ann "S1"
              "2024-01-01" {| updates := [("jobTitle", "Lead")] |}
              (VStr "admin")) as [Hstaff _].
  apply (Hstaff
           (fst (exec store_with_ann
                   (update_call "Staff" (staff_key "S1")
                      {| updates := [("jobTitle", "Lead")] |})))
           [("Attributes", VDict [("jobTitle", S_ "Lead")])]);
    reflexivity.
Defined.
